(** * garm-provider-azure: the provider's lifecycle calls

    A shallow embedding of [provider/provider.go]: [NewAzureProvider],
    [CreateInstance] with its deferred resource-group clean-up,
    [DeleteInstance], [GetInstance], [ListInstances], [RemoveAllInstances],
    [Stop] and [Start], the properties the specification states about them,
    and further properties the code shows.

    The Azure client ([internal/client]), the spec builder ([internal/spec])
    and the record translation ([internal/util]) are collaborators of the
    file: they appear as records of functions, and every theorem holds for
    all of them.  A run of a provider method yields what the method returns
    (or that it panicked) together with the list of client operations it
    issued, in order. *)

From Stdlib Require Import ZArith List String Bool Lia DecimalString.
Import ListNotations.
Local Open Scope string_scope.
Local Open Scope Z_scope.

(** ** Errors *)

(** Go [error] values.  [None : option error] is the nil error. *)
Inductive error : Type :=
| ErrorString (msg : string)
    (* an error of a collaborator, or [fmt.Errorf] of a constant string *)
| Errorf_w (context : string) (cause : error)
    (* [fmt.Errorf("<context>: %w", cause)] *)
| Errorf_invalid_architecture (arch supported : string)
    (* [fmt.Errorf("invalid architecture %s (supported: %s)", ..)] *)
| Errorf_max_ephemeral (vmSize : string) (maxSize requested : Z).
    (* [fmt.Errorf("maximul ephemeral disk size for %s is %d GB (requested %d)", ..)] *)

(** The verb [%d]. *)
Definition fmt_d (z : Z) : string := NilZero.string_of_int (Z.to_int z).

(** [err.Error()]. *)
Fixpoint Error (e : error) : string :=
  match e with
  | ErrorString msg => msg
  | Errorf_w context cause => context ++ ": " ++ Error cause
  | Errorf_invalid_architecture arch supported =>
      "invalid architecture " ++ arch ++ " (supported: " ++ supported ++ ")"
  | Errorf_max_ephemeral vmSize maxSize requested =>
      "maximul ephemeral disk size for " ++ vmSize ++ " is " ++ fmt_d maxSize
        ++ " GB (requested " ++ fmt_d requested ++ ")"
  end.

(** ** Disk sizes *)

(** Modelled from the spec: the integer type of [RunnerSpec.DiskSizeGB] and
    of the result of [GetMaxEphemeralDiskSize], whose declarations are in
    [internal/spec] and [internal/client] and not at hand.  Section 3 has
    the disk size request as a number of GB with 0 for "use
    default/ephemeral maximum", and section 4.1 reduces the maximum "by 1
    GB"; the provider compares the two, tests the request against 0 and
    prints both with [%d].  The width taken is that of the Azure SDK field
    the size ends in, [OSDisk.DiskSizeGB], an [int32].  Sizes are integers
    in [Z], and the one arithmetic operation of the provider, [maxSize - 1],
    wraps as Go's [int32] subtraction does. *)
Module Int32.

Definition min_signed : Z := - 2 ^ 31.

Definition max_signed : Z := 2 ^ 31 - 1.

Definition in_range (z : Z) : Prop := min_signed <= z <= max_signed.

Definition wrap (z : Z) : Z := (z + 2 ^ 31) mod 2 ^ 32 - 2 ^ 31.

Definition sub (x y : Z) : Z := wrap (x - y).

End Int32.

(** ** Data of [garm-provider-common/params] *)

(** [params.Amd64]. *)
Definition Amd64 : string := "amd64".

Inductive AddressType : Type := PublicAddress | PrivateAddress.

Record Address : Type := {
  Address_Address : string;
  Address_Type : AddressType
}.

Record BootstrapInstance : Type := {
  Name : string;
  OSArch : string;
  OSType : string
}.

Record ProviderInstance : Type := {
  PI_ProviderID : string;
  PI_Name : string;
  PI_OSType : string;
  PI_OSArch : string;
  PI_OSName : string;
  PI_OSVersion : string;
  PI_Status : string;
  PI_Addresses : list Address
}.

(** [params.ProviderInstance{}]. *)
Definition ProviderInstance_zero : ProviderInstance :=
  {| PI_ProviderID := ""; PI_Name := ""; PI_OSType := ""; PI_OSArch := "";
     PI_OSName := ""; PI_OSVersion := ""; PI_Status := ""; PI_Addresses := [] |}.

(** ** Data of the collaborating packages, as far as the provider reads it *)

(** [config.Config]: never inspected here, only handed to the spec builder. *)
Variant Config : Type := LoadedConfig (configPath : string).

Record RunnerSpec : Type := {
  VMSize : string;
  AllocatePublicIP : bool;
  DiskSizeGB : Z;
  UseEphemeralStorage : bool;
  Confidential : bool;
  UseAcceleratedNetworking : bool;
  VirtualNetworkCIDR : string;
  BootstrapParams : BootstrapInstance;
  Tags : list (string * string)
}.

Record ImageDetails : Type := {
  SKU : string;
  Version : string
}.

(** A resource of the provider (resource group, virtual network, subnet,
    security group, network interface): the provider reads its [ID], a
    [*string], only.  [None] is the nil pointer. *)
Record Resource : Type := { ID : option string }.

Record PublicIPAddressPropertiesFormat : Type := { IPAddress : option string }.

Record PublicIPAddress : Type := {
  PublicIP_ID : option string;
  Properties : option PublicIPAddressPropertiesFormat
}.

(** [armcompute.VirtualMachine], handed to the translation unread. *)
Record VirtualMachine : Type := {
  VM_ID : option string;
  VM_Name : option string
}.

(** ** The collaborators

    A Go call returning [(T, error)] is a pair of [T] and [option error];
    the provider looks at the error first and at the value only when the
    error is nil. *)

(** [internal/client.AzureCli]: the answers of the client to each
    operation. *)
Record AzureCli : Type := {
  GetMaxEphemeralDiskSize : string -> Z * option error;
  CreateResourceGroup : string -> list (string * string) -> Resource * option error;
  DeleteResourceGroup : string -> bool -> option error;
  CreateVirtualNetwork : string -> string -> Resource * option error;
  CreateSubnet : string -> string -> Resource * option error;
  CreatePublicIP : string -> PublicIPAddress * option error;
  CreateNetworkSecurityGroup : string -> RunnerSpec -> Resource * option error;
  CreateNetWorkInterface :
    string -> string -> string -> string -> bool -> Resource * option error;
  CreateVirtualMachine :
    RunnerSpec -> string -> list (string * string) -> Z -> option error;
  GetInstance_cli : string -> string -> VirtualMachine * option error;
  ListVirtualMachines : string -> option (list (option VirtualMachine)) * option error;
  DealocateVM : string -> string -> option error;
  StartVM : string -> option error
}.

(** The functions of [internal/spec] and [internal/util] the provider
    calls. *)
Record Packages : Type := {
  GetRunnerSpecFromBootstrapParams :
    BootstrapInstance -> string -> Config -> RunnerSpec * option error;
  RunnerSpec_ImageDetails : RunnerSpec -> ImageDetails * option error;
  AzureInstanceToParamsInstance : VirtualMachine -> ProviderInstance * option error
}.

Record azureProvider : Type := {
  controllerID : string;
  azCli : AzureCli;
  cfg : Config
}.

(** The client operations a method issues, with their arguments. *)
Inductive call : Type :=
| CallGetMaxEphemeralDiskSize (vmSize : string)
| CallCreateResourceGroup (name : string) (tags : list (string * string))
| CallDeleteResourceGroup (name : string) (force : bool)
| CallCreateVirtualNetwork (name cidr : string)
| CallCreateSubnet (name cidr : string)
| CallCreatePublicIP (name : string)
| CallCreateNetworkSecurityGroup (name : string) (spec : RunnerSpec)
| CallCreateNetWorkInterface (name subnetID nsgID pubIPID : string) (accel : bool)
| CallCreateVirtualMachine
    (spec : RunnerSpec) (nicID : string) (tags : list (string * string)) (cacheSize : Z)
| CallGetInstance (rg name : string)
| CallListVirtualMachines (poolID : string)
| CallDealocateVM (rg name : string)
| CallStartVM (name : string).

Definition is_delete_group (c : call) : bool :=
  match c with CallDeleteResourceGroup _ _ => true | _ => false end.

Definition is_create_group (c : call) : bool :=
  match c with CallCreateResourceGroup _ _ => true | _ => false end.

Definition count (p : call -> bool) (ops : list call) : nat :=
  List.length (List.filter p ops).

(** The operations that follow the creation of the resource group
    (lines 105-140). *)
Inductive step : Type :=
| StepVirtualNetwork | StepSubnet | StepPublicIP | StepSecurityGroup
| StepInterface | StepVirtualMachine.

Definition provisioning_step (c : call) : option step :=
  match c with
  | CallCreateVirtualNetwork _ _ => Some StepVirtualNetwork
  | CallCreateSubnet _ _ => Some StepSubnet
  | CallCreatePublicIP _ => Some StepPublicIP
  | CallCreateNetworkSecurityGroup _ _ => Some StepSecurityGroup
  | CallCreateNetWorkInterface _ _ _ _ _ => Some StepInterface
  | CallCreateVirtualMachine _ _ _ _ => Some StepVirtualMachine
  | _ => None
  end.

(** The text each step puts before the error it wraps. *)
Definition failure_context (s : step) : string :=
  match s with
  | StepVirtualNetwork => "failed to create virtual network"
  | StepSubnet => "failed to create subnet"
  | StepPublicIP => "failed to create public IP"
  | StepSecurityGroup => "failed to create network security group"
  | StepInterface => "failed to create NIC"
  | StepVirtualMachine => "failed to create VM"
  end.

(** The steps whose [err] is declared by [:=] in a scope of their own
    (line 118, in the [if] block, and line 138, in the [if] statement), all
    others assigning the function-scope [err]. *)
Definition declares_own_err (s : step) : bool :=
  match s with
  | StepPublicIP | StepVirtualMachine => true
  | _ => false
  end.

(** The error the client answers an operation with. *)
Definition answered_error (cli : AzureCli) (c : call) : option error :=
  match c with
  | CallGetMaxEphemeralDiskSize vmSize => snd (GetMaxEphemeralDiskSize cli vmSize)
  | CallCreateResourceGroup name tags => snd (CreateResourceGroup cli name tags)
  | CallDeleteResourceGroup name force => DeleteResourceGroup cli name force
  | CallCreateVirtualNetwork name cidr => snd (CreateVirtualNetwork cli name cidr)
  | CallCreateSubnet name cidr => snd (CreateSubnet cli name cidr)
  | CallCreatePublicIP name => snd (CreatePublicIP cli name)
  | CallCreateNetworkSecurityGroup name spec =>
      snd (CreateNetworkSecurityGroup cli name spec)
  | CallCreateNetWorkInterface name subnetID nsgID pubIPID accel =>
      snd (CreateNetWorkInterface cli name subnetID nsgID pubIPID accel)
  | CallCreateVirtualMachine spec nicID tags cacheSize =>
      CreateVirtualMachine cli spec nicID tags cacheSize
  | CallGetInstance rg name => snd (GetInstance_cli cli rg name)
  | CallListVirtualMachines poolID => snd (ListVirtualMachines cli poolID)
  | CallDealocateVM rg name => DealocateVM cli rg name
  | CallStartVM name => StartVM cli name
  end.

(** ** A function body with one [err] variable and deferred calls

    [CreateInstance] declares [err] once in its outermost scope, assigns it
    again and again, and registers a closure that reads it when the function
    exits.  Inner scopes declare their own [err] with [:=]; those are
    ordinary bound variables below and never reach the frame. *)

Record frame : Type := {
  err : option error;                          (* the function-scope [err] *)
  ops : list call;                             (* operations issued so far *)
  deferred : list (option error -> list call)  (* closures over [err], last first *)
}.

Definition entry : frame := {| err := None; ops := []; deferred := [] |}.

(** How a call ends: a [return] with both results, or a panic. *)
Inductive completion : Type :=
| Returns (instance : ProviderInstance) (e : option error)
| Panics (reason : string).

Inductive flow (A : Type) : Type :=
| Continue (x : A) (fr : frame)
| Leave (c : completion) (fr : frame).
Arguments Continue {A} x fr.
Arguments Leave {A} c fr.

Definition body (A : Type) : Type := frame -> flow A.

Definition ret {A} (x : A) : body A := fun fr => Continue x fr.

Definition bind {A B} (m : body A) (k : A -> body B) : body B :=
  fun fr =>
    match m fr with
    | Continue x fr' => k x fr'
    | Leave c fr' => Leave c fr'
    end.

Declare Scope body_scope.
Delimit Scope body_scope with body.
Notation "x <- m ;; k" := (bind m (fun x => k))
  (at level 100, m at next level, right associativity) : body_scope.
Notation "m ;; k" := (bind m (fun _ => k))
  (at level 100, right associativity) : body_scope.

(** [return instance, e] *)
Definition return_ {A} (instance : ProviderInstance) (e : option error) : body A :=
  fun fr => Leave (Returns instance e) fr.

Definition panic {A} (reason : string) : body A :=
  fun fr => Leave (Panics reason) fr.

(** [*p] *)
Definition deref {A} (p : option A) : body A :=
  match p with
  | Some x => ret x
  | None => panic "invalid memory address or nil pointer dereference"
  end.

(** A client operation: it is recorded, and the client's answer is the
    result. *)
Definition azure {A} (c : call) (answer : A) : body A :=
  fun fr => Continue answer {| err := err fr; ops := ops fr ++ [c]; deferred := deferred fr |}.

(** [x, err = f()] (and [x, err := f()] where [err] is already declared in
    the same scope): the function-scope [err] is overwritten. *)
Definition assign {A} (r : A * option error) : body A :=
  fun fr => Continue (fst r) {| err := snd r; ops := ops fr; deferred := deferred fr |}.

(** [if err != nil { return params.ProviderInstance{}, fmt.Errorf("<context>: %w", err) }]
    on the function-scope [err]. *)
Definition if_err_return (context : string) : body unit :=
  fun fr =>
    match err fr with
    | Some e => Leave (Returns ProviderInstance_zero (Some (Errorf_w context e))) fr
    | None => Continue tt fr
    end.

(** The same test on an [err] declared by [:=] in an inner scope. *)
Definition if_local_err_return (e : option error) (context : string) : body unit :=
  match e with
  | Some e' => return_ ProviderInstance_zero (Some (Errorf_w context e'))
  | None => ret tt
  end.

(** [defer func() { ... }()] *)
Definition defer (closure : option error -> list call) : body unit :=
  fun fr => Continue tt {| err := err fr; ops := ops fr; deferred := closure :: deferred fr |}.

(** Leaving the function, by [return] or by panic: the deferred closures run,
    each reading the function-scope [err] as it is then. *)
Definition run_deferred (fr : frame) : list call :=
  ops fr ++ List.flat_map (fun closure => closure (err fr)) (deferred fr).

Definition run (m : body Empty_set) : completion * list call :=
  match m entry with
  | Continue x _ => match x with end
  | Leave c fr => (c, run_deferred fr)
  end.

(** ** [provider/provider.go] *)

Local Open Scope body_scope.

(** The closure deferred at lines 99-103: it reads the function-scope [err]
    and, when that is not nil, deletes the resource group, dropping the
    deletion's own result. *)
Definition rollback (name : string) (err_at_exit : option error) : list call :=
  match err_at_exit with
  | Some _ => [CallDeleteResourceGroup name true]
  | None => []
  end.

(** Lines 71-92: the cache (OS disk) size.  The [err] of line 73 lives in
    the [if] block. *)
Definition resolve_cacheSize (cli : AzureCli) (spec : RunnerSpec) : body Z :=
  let cacheSize := DiskSizeGB spec in
  if UseEphemeralStorage spec then
    r <- azure (CallGetMaxEphemeralDiskSize (VMSize spec))
               (GetMaxEphemeralDiskSize cli (VMSize spec)) ;;
    let '(maxSize, err_73) := r in
    if_local_err_return err_73 "failed to get max ephemeral disk size" ;;
    let maxSize := if Confidential spec then Int32.sub maxSize 1 else maxSize in
    let cacheSize := if cacheSize =? 0 then maxSize else cacheSize in
    if maxSize <? DiskSizeGB spec then
      return_ ProviderInstance_zero
        (Some (Errorf_max_ephemeral (VMSize spec) maxSize (DiskSizeGB spec)))
    else ret cacheSize
  else ret cacheSize.

(** Lines 115-126: the optional public IP.  [publicIP, err := ...] is inside
    the [if] block, so this [err] is a new variable of the block. *)
Definition allocate_public_ip (cli : AzureCli) (spec : RunnerSpec) : body (string * string) :=
  let pubIPID := "" in
  let pubIP := "" in
  if AllocatePublicIP spec then
    r <- azure (CallCreatePublicIP (Name (BootstrapParams spec)))
               (CreatePublicIP cli (Name (BootstrapParams spec))) ;;
    let '(publicIP, err_118) := r in
    if_local_err_return err_118 "failed to create public IP" ;;
    let pubIP :=
      match Properties publicIP with
      | Some properties =>
          match IPAddress properties with
          | Some address => address
          | None => pubIP
          end
      | None => pubIP
      end in
    pubIPID <- deref (PublicIP_ID publicIP) ;;
    ret (pubIPID, pubIP)
  else ret (pubIPID, pubIP).

(** Lines 145-161. *)
Definition assemble_instance (spec : RunnerSpec) (imgDetails : ImageDetails)
    (pubIP : string) : ProviderInstance :=
  let instance :=
    {| PI_ProviderID := Name (BootstrapParams spec);
       PI_Name := Name (BootstrapParams spec);
       PI_OSType := OSType (BootstrapParams spec);
       PI_OSArch := OSArch (BootstrapParams spec);
       PI_OSName := SKU imgDetails;
       PI_OSVersion := Version imgDetails;
       PI_Status := "running";
       PI_Addresses := [] |} in
  if negb (String.eqb pubIP "") then
    {| PI_ProviderID := PI_ProviderID instance;
       PI_Name := PI_Name instance;
       PI_OSType := PI_OSType instance;
       PI_OSArch := PI_OSArch instance;
       PI_OSName := PI_OSName instance;
       PI_OSVersion := PI_OSVersion instance;
       PI_Status := PI_Status instance;
       PI_Addresses :=
         PI_Addresses instance
           ++ [{| Address_Address := pubIP; Address_Type := PublicAddress |}] |}
  else instance.

(** Lines 55-162. *)
Definition CreateInstance_body (pk : Packages) (a : azureProvider)
    (bootstrapParams : BootstrapInstance) : body Empty_set :=
  let cli := azCli a in
  if negb (String.eqb (OSArch bootstrapParams) Amd64) then
    return_ ProviderInstance_zero
      (Some (Errorf_invalid_architecture (OSArch bootstrapParams) Amd64))
  else
  spec <- assign (GetRunnerSpecFromBootstrapParams pk bootstrapParams
                    (controllerID a) (cfg a)) ;;
  if_err_return "failed to generate spec" ;;
  imgDetails <- assign (RunnerSpec_ImageDetails pk spec) ;;
  if_err_return "failed to get image details" ;;
  cacheSize <- resolve_cacheSize cli spec ;;
  let name := Name (BootstrapParams spec) in
  r <- azure (CallCreateResourceGroup name (Tags spec))
             (CreateResourceGroup cli name (Tags spec)) ;;
  assign r ;;
  if_err_return "failed to create resource group" ;;
  defer (rollback name) ;;
  r <- azure (CallCreateVirtualNetwork name (VirtualNetworkCIDR spec))
             (CreateVirtualNetwork cli name (VirtualNetworkCIDR spec)) ;;
  assign r ;;
  if_err_return "failed to create virtual network" ;;
  r <- azure (CallCreateSubnet name (VirtualNetworkCIDR spec))
             (CreateSubnet cli name (VirtualNetworkCIDR spec)) ;;
  subnet <- assign r ;;
  if_err_return "failed to create subnet" ;;
  ip <- allocate_public_ip cli spec ;;
  let '(pubIPID, pubIP) := ip in
  r <- azure (CallCreateNetworkSecurityGroup name spec)
             (CreateNetworkSecurityGroup cli name spec) ;;
  nsg <- assign r ;;
  if_err_return "failed to create network security group" ;;
  subnetID <- deref (ID subnet) ;;
  nsgID <- deref (ID nsg) ;;
  r <- azure (CallCreateNetWorkInterface name subnetID nsgID pubIPID
                (UseAcceleratedNetworking spec))
             (CreateNetWorkInterface cli name subnetID nsgID pubIPID
                (UseAcceleratedNetworking spec)) ;;
  nic <- assign r ;;
  if_err_return "failed to create NIC" ;;
  nicID <- deref (ID nic) ;;
  err_138 <- azure (CallCreateVirtualMachine spec nicID (Tags spec) cacheSize)
                   (CreateVirtualMachine cli spec nicID (Tags spec) cacheSize) ;;
  if_local_err_return err_138 "failed to create VM" ;;
  return_ (assemble_instance spec imgDetails pubIP) None.

Definition CreateInstance (pk : Packages) (a : azureProvider)
    (bootstrapParams : BootstrapInstance) : completion * list call :=
  run (CreateInstance_body pk a bootstrapParams).

(** Lines 165-171. *)
Definition DeleteInstance (a : azureProvider) (instance : string)
    : option error * list call :=
  let err := DeleteResourceGroup (azCli a) instance true in
  let issued := [CallDeleteResourceGroup instance true] in
  match err with
  | Some e => (Some (Errorf_w "failed to delete instance" e), issued)
  | None => (None, issued)
  end.

(** Lines 174-184. *)
Definition GetInstance (pk : Packages) (a : azureProvider) (instance : string)
    : (ProviderInstance * option error) * list call :=
  let issued := [CallGetInstance instance instance] in
  let '(vm, err) := GetInstance_cli (azCli a) instance instance in
  match err with
  | Some e => ((ProviderInstance_zero, Some (Errorf_w "failed to get VM details" e)), issued)
  | None =>
      let '(details, err) := AzureInstanceToParamsInstance pk vm in
      match err with
      | Some e =>
          ((ProviderInstance_zero, Some (Errorf_w "failed to convert VM details" e)), issued)
      | None => ((details, None), issued)
      end
  end.

(** [resp[idx] = details]; [idx] is always within [resp] in the loop below. *)
Fixpoint store {A} (idx : nat) (x : A) (l : list A) : list A :=
  match l, idx with
  | [], _ => []
  | _ :: l', O => x :: l'
  | y :: l', S idx' => y :: store idx' x l'
  end.

(** Lines 198-208: the [range] loop from index [idx] on, over the elements
    not yet visited.  A slice is [option (list _)], [None] being nil. *)
Fixpoint convert_from (pk : Packages) (idx : nat) (instances : list (option VirtualMachine))
    (resp : list ProviderInstance) : option (list ProviderInstance) * option error :=
  match instances with
  | [] => (Some resp, None)
  | val :: rest =>
      match val with
      | None => (None, Some (ErrorString "nil vm object in response"))
      | Some vm =>
          let '(details, err) := AzureInstanceToParamsInstance pk vm in
          match err with
          | Some e => (None, Some (Errorf_w "failed to convert VM details" e))
          | None => convert_from pk (S idx) rest (store idx details resp)
          end
      end
  end.

(** Lines 187-209. *)
Definition ListInstances (pk : Packages) (a : azureProvider) (poolID : string)
    : (option (list ProviderInstance) * option error) * list call :=
  let issued := [CallListVirtualMachines poolID] in
  let '(instances, err) := ListVirtualMachines (azCli a) poolID in
  match err with
  | Some e => ((None, Some (Errorf_w "failed to list instances" e)), issued)
  | None =>
      match instances with
      | None => ((Some [], None), issued)
      | Some instances =>
          let resp := List.repeat ProviderInstance_zero (List.length instances) in
          (convert_from pk 0 instances resp, issued)
      end
  end.

(** Lines 212-214. *)
Definition RemoveAllInstances (a : azureProvider) : option error * list call :=
  (None, []).

(** Lines 217-219. *)
Definition Stop (a : azureProvider) (instance : string) (force : bool)
    : option error * list call :=
  (DealocateVM (azCli a) instance instance, [CallDealocateVM instance instance]).

(** Lines 222-224. *)
Definition Start (a : azureProvider) (instance : string) : option error * list call :=
  (StartVM (azCli a) instance, [CallStartVM instance]).

Local Close Scope body_scope.

(** ** Scenarios

    Concrete collaborators and requests, used to run the definitions above. *)

Definition created (id : string) : Resource * option error :=
  ({| ID := Some id |}, None).

Definition Resource_zero : Resource := {| ID := None |}.
Definition PublicIPAddress_zero : PublicIPAddress :=
  {| PublicIP_ID := None; Properties := None |}.

(** A client every operation of which succeeds; the size query answers
    [maxEphemeral], the public IP comes back as [publicIP], and the listing
    as [listing]. *)
Definition cloud (maxEphemeral : Z) (publicIP : PublicIPAddress)
    (listing : option (list (option VirtualMachine))) : AzureCli :=
  {| GetMaxEphemeralDiskSize := fun _ => (maxEphemeral, None);
     CreateResourceGroup := fun name _ => created ("rg/" ++ name);
     DeleteResourceGroup := fun _ _ => None;
     CreateVirtualNetwork := fun name _ => created ("vnet/" ++ name);
     CreateSubnet := fun name _ => created ("subnet/" ++ name);
     CreatePublicIP := fun _ => (publicIP, None);
     CreateNetworkSecurityGroup := fun name _ => created ("nsg/" ++ name);
     CreateNetWorkInterface := fun name _ _ _ _ => created ("nic/" ++ name);
     CreateVirtualMachine := fun _ _ _ _ => None;
     GetInstance_cli := fun _ name => ({| VM_ID := Some name; VM_Name := Some name |}, None);
     ListVirtualMachines := fun _ => (listing, None);
     DealocateVM := fun _ _ => None;
     StartVM := fun _ => None |}.

(** The failure a scenario injects into one operation of [cloud]. *)
Definition broken : error := ErrorString "quota exceeded".

Definition cloud_failing_at (s : step) (publicIP : PublicIPAddress) : AzureCli :=
  let c := cloud 64 publicIP None in
  {| GetMaxEphemeralDiskSize := GetMaxEphemeralDiskSize c;
     CreateResourceGroup := CreateResourceGroup c;
     DeleteResourceGroup := DeleteResourceGroup c;
     CreateVirtualNetwork :=
       match s with
       | StepVirtualNetwork => fun _ _ => (Resource_zero, Some broken)
       | _ => CreateVirtualNetwork c
       end;
     CreateSubnet :=
       match s with
       | StepSubnet => fun _ _ => (Resource_zero, Some broken)
       | _ => CreateSubnet c
       end;
     CreatePublicIP :=
       match s with
       | StepPublicIP => fun _ => (PublicIPAddress_zero, Some broken)
       | _ => CreatePublicIP c
       end;
     CreateNetworkSecurityGroup :=
       match s with
       | StepSecurityGroup => fun _ _ => (Resource_zero, Some broken)
       | _ => CreateNetworkSecurityGroup c
       end;
     CreateNetWorkInterface :=
       match s with
       | StepInterface => fun _ _ _ _ _ => (Resource_zero, Some broken)
       | _ => CreateNetWorkInterface c
       end;
     CreateVirtualMachine :=
       match s with
       | StepVirtualMachine => fun _ _ _ _ => Some broken
       | _ => CreateVirtualMachine c
       end;
     GetInstance_cli := GetInstance_cli c;
     ListVirtualMachines := ListVirtualMachines c;
     DealocateVM := DealocateVM c;
     StartVM := StartVM c |}.

(** A spec builder that carries the request in the spec and takes the other
    fields from the arguments. *)
Definition spec_of (ephemeral confidential publicIP : bool) (disk : Z)
    (bootstrapParams : BootstrapInstance) (controller : string) : RunnerSpec :=
  {| VMSize := "Standard_D2ds_v5";
     AllocatePublicIP := publicIP;
     DiskSizeGB := disk;
     UseEphemeralStorage := ephemeral;
     Confidential := confidential;
     UseAcceleratedNetworking := false;
     VirtualNetworkCIDR := "10.10.0.0/16";
     BootstrapParams := bootstrapParams;
     Tags := [("garm-controller-id", controller)] |}.

Definition vm_to_instance (vm : VirtualMachine) : ProviderInstance * option error :=
  match VM_Name vm with
  | Some n =>
      ({| PI_ProviderID := n; PI_Name := n; PI_OSType := "linux"; PI_OSArch := Amd64;
          PI_OSName := ""; PI_OSVersion := ""; PI_Status := "running";
          PI_Addresses := [] |}, None)
  | None => (ProviderInstance_zero, Some (ErrorString "missing VM name"))
  end.

Definition packages (ephemeral confidential publicIP : bool) (disk : Z) : Packages :=
  {| GetRunnerSpecFromBootstrapParams :=
       fun bootstrapParams controller _ =>
         (spec_of ephemeral confidential publicIP disk bootstrapParams controller, None);
     RunnerSpec_ImageDetails :=
       fun _ => ({| SKU := "22_04-lts-gen2"; Version := "latest" |}, None);
     AzureInstanceToParamsInstance := vm_to_instance |}.

Definition provider (cli : AzureCli) : azureProvider :=
  {| controllerID := "controller-1"; azCli := cli; cfg := LoadedConfig "azure.toml" |}.

Definition runner (arch : string) : BootstrapInstance :=
  {| Name := "garm-runner-1"; OSArch := arch; OSType := "linux" |}.

Definition address_20_1_2_3 : PublicIPAddress :=
  {| PublicIP_ID := Some "pip/garm-runner-1";
     Properties := Some {| IPAddress := Some "20.1.2.3" |} |}.

(** A client that answers like [cli] but for the size query. *)
Definition with_GetMaxEphemeralDiskSize (answer : string -> Z * option error)
    (cli : AzureCli) : AzureCli :=
  {| GetMaxEphemeralDiskSize := answer;
     CreateResourceGroup := CreateResourceGroup cli;
     DeleteResourceGroup := DeleteResourceGroup cli;
     CreateVirtualNetwork := CreateVirtualNetwork cli;
     CreateSubnet := CreateSubnet cli;
     CreatePublicIP := CreatePublicIP cli;
     CreateNetworkSecurityGroup := CreateNetworkSecurityGroup cli;
     CreateNetWorkInterface := CreateNetWorkInterface cli;
     CreateVirtualMachine := CreateVirtualMachine cli;
     GetInstance_cli := GetInstance_cli cli;
     ListVirtualMachines := ListVirtualMachines cli;
     DealocateVM := DealocateVM cli;
     StartVM := StartVM cli |}.

(** A client that answers like [cli] but for the resource-group deletion. *)
Definition with_DeleteResourceGroup (answer : string -> bool -> option error)
    (cli : AzureCli) : AzureCli :=
  {| GetMaxEphemeralDiskSize := GetMaxEphemeralDiskSize cli;
     CreateResourceGroup := CreateResourceGroup cli;
     DeleteResourceGroup := answer;
     CreateVirtualNetwork := CreateVirtualNetwork cli;
     CreateSubnet := CreateSubnet cli;
     CreatePublicIP := CreatePublicIP cli;
     CreateNetworkSecurityGroup := CreateNetworkSecurityGroup cli;
     CreateNetWorkInterface := CreateNetWorkInterface cli;
     CreateVirtualMachine := CreateVirtualMachine cli;
     GetInstance_cli := GetInstance_cli cli;
     ListVirtualMachines := ListVirtualMachines cli;
     DealocateVM := DealocateVM cli;
     StartVM := StartVM cli |}.

Definition on_client (f : AzureCli -> AzureCli) (a : azureProvider) : azureProvider :=
  {| controllerID := controllerID a; azCli := f (azCli a); cfg := cfg a |}.

(** ** The client's resource-group deletion *)

(** What the provider's API answers to a deletion request, apart from
    accepting it: the resource group does not exist, or anything else. *)
Inductive condition : Type :=
| NotFound
| Failure (e : error).

(** Modelled from the spec: [DeleteResourceGroup] of [internal/client], whose
    source is not at hand.  Section 6 has every operation of the cloud
    resource client "return a distinguishable not-found condition", and
    section 4.3 says of deletion: "A not-found condition on the resource
    group is treated as successful deletion (idempotent delete)."
    [DeleteInstance] itself hands every error of the client on, so the place
    of that treatment is the client.  [api] is the provider's deletion
    endpoint. *)
Definition client_DeleteResourceGroup (api : string -> bool -> option condition)
    (resourceGroup : string) (forceDelete : bool) : option error :=
  match api resourceGroup forceDelete with
  | None => None
  | Some NotFound => None
  | Some (Failure e) => Some e
  end.

(** Modelled from the spec: a subscription holding the resource groups
    [groups]; deleting one that is not among them is the not-found
    condition. *)
Definition subscription (groups : list string) (resourceGroup : string)
    (forceDelete : bool) : option condition :=
  if List.existsb (String.eqb resourceGroup) groups then None else Some NotFound.

(** ** The constructor *)

(** [config.NewConfig] and [client.NewAzCLI]; on a nil error they hand back
    the object they built. *)
Record Constructors : Type := {
  NewConfig : string -> Config * option error;
  NewAzCLI : Config -> AzureCli * option error
}.

(** Lines 32-46.  The first result is the provider, [None] being nil. *)
Definition NewAzureProvider (ctor : Constructors) (configPath controllerID : string)
    : option azureProvider * option error :=
  let '(conf, err) := NewConfig ctor configPath in
  match err with
  | Some e => (None, Some (Errorf_w "error loading config" e))
  | None =>
      let '(azCli, err) := NewAzCLI ctor conf in
      match err with
      | Some e => (None, Some (Errorf_w "failed to get azure CLI" e))
      | None =>
          (Some {| controllerID := controllerID; azCli := azCli; cfg := conf |}, None)
      end
  end.

(** ** Reading a list of operations *)

(** The place of an operation in the text of [CreateInstance]; the
    operations of the other methods come last. *)
Definition rank (c : call) : nat :=
  match c with
  | CallGetMaxEphemeralDiskSize _ => 0
  | CallCreateResourceGroup _ _ => 1
  | CallCreateVirtualNetwork _ _ => 2
  | CallCreateSubnet _ _ => 3
  | CallCreatePublicIP _ => 4
  | CallCreateNetworkSecurityGroup _ _ => 5
  | CallCreateNetWorkInterface _ _ _ _ _ => 6
  | CallCreateVirtualMachine _ _ _ _ => 7
  | CallDeleteResourceGroup _ _ => 8
  | CallGetInstance _ _ | CallListVirtualMachines _
  | CallDealocateVM _ _ | CallStartVM _ => 9
  end%nat.

Fixpoint ascending (l : list nat) : bool :=
  match l with
  | x :: (y :: _) as rest => Nat.ltb x y && ascending rest
  | _ => true
  end.

(** The instance name an operation is handed, as an argument of its own or
    inside the spec; the size query and the listing are handed none. *)
Definition name_given (c : call) : option string :=
  match c with
  | CallGetMaxEphemeralDiskSize _ => None
  | CallCreateResourceGroup name _ => Some name
  | CallDeleteResourceGroup name _ => Some name
  | CallCreateVirtualNetwork name _ => Some name
  | CallCreateSubnet name _ => Some name
  | CallCreatePublicIP name => Some name
  | CallCreateNetworkSecurityGroup name _ => Some name
  | CallCreateNetWorkInterface name _ _ _ _ => Some name
  | CallCreateVirtualMachine spec _ _ _ => Some (Name (BootstrapParams spec))
  | CallGetInstance rg _ => Some rg
  | CallListVirtualMachines _ => None
  | CallDealocateVM rg _ => Some rg
  | CallStartVM name => Some name
  end.

(** ** More scenarios *)

(** A client that cannot create the resource group. *)
Definition cloud_without_quota : AzureCli :=
  let c := cloud 64 PublicIPAddress_zero None in
  {| GetMaxEphemeralDiskSize := GetMaxEphemeralDiskSize c;
     CreateResourceGroup := fun _ _ => (Resource_zero, Some broken);
     DeleteResourceGroup := DeleteResourceGroup c;
     CreateVirtualNetwork := CreateVirtualNetwork c;
     CreateSubnet := CreateSubnet c;
     CreatePublicIP := CreatePublicIP c;
     CreateNetworkSecurityGroup := CreateNetworkSecurityGroup c;
     CreateNetWorkInterface := CreateNetWorkInterface c;
     CreateVirtualMachine := CreateVirtualMachine c;
     GetInstance_cli := GetInstance_cli c;
     ListVirtualMachines := ListVirtualMachines c;
     DealocateVM := DealocateVM c;
     StartVM := StartVM c |}.

Definition constructors : Constructors :=
  {| NewConfig := fun configPath => (LoadedConfig configPath, None);
     NewAzCLI := fun _ => (cloud 64 PublicIPAddress_zero None, None) |}.

(** A public IP is requested and the network interface cannot be created. *)
Notation run_nic_failure :=
  (CreateInstance (packages false false true 0)
    (provider (cloud_failing_at StepInterface address_20_1_2_3)) (runner "amd64")).

(** A public IP is requested and everything succeeds. *)
Notation run_public_ip :=
  (CreateInstance (packages false false true 0)
    (provider (cloud 64 address_20_1_2_3 None)) (runner "amd64")).

(** A public IP is requested and comes back without identifier. *)
Notation run_without_id :=
  (CreateInstance (packages false false true 0)
    (provider (cloud 64 PublicIPAddress_zero None)) (runner "amd64")).

(** A confidential VM on ephemeral storage with a public IP; everything
    succeeds. *)
Notation run_confidential :=
  (CreateInstance (packages true true true 0)
    (provider (cloud 64 address_20_1_2_3 None)) (runner "amd64")).

(** ** Symbolic execution of [CreateInstance] *)

(** Unfolding of a function body down to the collaborators' answers. *)
Ltac unfold_body :=
  cbv beta iota zeta delta
    [CreateInstance CreateInstance_body run run_deferred entry resolve_cacheSize
     allocate_public_ip bind ret azure assign if_err_return if_local_err_return
     defer return_ panic deref rollback err ops deferred
     on_client with_GetMaxEphemeralDiskSize with_DeleteResourceGroup
     azCli controllerID cfg
     GetRunnerSpecFromBootstrapParams RunnerSpec_ImageDetails
     GetMaxEphemeralDiskSize CreateResourceGroup DeleteResourceGroup
     CreateVirtualNetwork CreateSubnet CreatePublicIP CreateNetworkSecurityGroup
     CreateNetWorkInterface CreateVirtualMachine
     fst snd app flat_map negb].

(** The term a stuck computation is waiting for: the innermost scrutinee on
    the path from the head. *)
Ltac head_stuck t :=
  lazymatch t with
  | match ?x with _ => _ end => head_stuck x
  | (match ?x with _ => _ end) _ => head_stuck x
  | fst ?p => head_stuck p
  | snd ?p => head_stuck p
  | negb ?b => head_stuck b
  | _ => t
  end.

(** One step of the run [t]: the answer (or flag) it is waiting for is taken
    from the hypotheses when one of them gives it, and split into its cases
    otherwise. *)
Ltac case_answer t :=
  let s := head_stuck t in
  first
    [ match goal with H : s = _ |- _ => rewrite H end
    | let E := fresh "Hanswer" in
      lazymatch type of s with
      | prod _ _ => destruct s as [? ?] eqn:E
      | _ => destruct s eqn:E
      end;
      try rewrite E in * ];
  unfold_body.

(** Symbolic execution of the run on the right of [_ = run -> _]. *)
Ltac run_body :=
  unfold_body;
  repeat lazymatch goal with
         | |- _ = ?rhs -> _ =>
             lazymatch rhs with
             | (_, _) => fail
             | _ => case_answer rhs
             end
         end.

(** The collaborators as the functions they are made of, and the run under
    study named [res]. *)
Ltac open_run a pk res :=
  destruct a as [? [] ?], pk;
  cbn [azCli controllerID cfg
       GetRunnerSpecFromBootstrapParams RunnerSpec_ImageDetails
       GetMaxEphemeralDiskSize CreateResourceGroup DeleteResourceGroup
       CreateVirtualNetwork CreateSubnet CreatePublicIP CreateNetworkSecurityGroup
       CreateNetWorkInterface CreateVirtualMachine] in *;
  let Hres := fresh "Hres" in
  remember (CreateInstance _ _ _) as res eqn:Hres;
  revert Hres.

(** Closing a leaf of the symbolic execution: the answers assumed meet the
    answers met. *)
Ltac settle :=
  intros; subst;
  repeat match goal with
         | H : (_, _) = (_, _) |- _ => inversion H; clear H; subst
         | H : Some _ = Some _ |- _ => inversion H; clear H; subst
         | H : Returns _ _ = Returns _ _ |- _ => inversion H; clear H; subst
         | H : (_ <? _) = true |- _ => apply Z.ltb_lt in H
         | H : (_ <? _) = false |- _ => apply Z.ltb_ge in H
         | H : (_ =? _) = true |- _ => apply Z.eqb_eq in H
         | H : (_ =? _) = false |- _ => apply Z.eqb_neq in H
         | H : (_ =? _)%string = true |- _ => apply String.eqb_eq in H
         | H : (_ =? _)%string = false |- _ => apply String.eqb_neq in H
         end;
  try discriminate; try congruence; try lia.

(** The cases of an operation being among those issued. *)
Ltac in_cases :=
  repeat match goal with
         | H : In _ [] |- _ => destruct H
         | H : In _ (_ :: _) |- _ => destruct H as [H|H]; [try discriminate H|]
         | H : @eq call _ _ |- _ => inversion H; clear H; subst
         end.

Ltac leaf := unfold not; intros; cbn [fst snd] in *; in_cases; settle.

(** ** Properties *)

Lemma Int32_sub_1 (z : Z) :
  Int32.min_signed < z -> z <= Int32.max_signed -> Int32.sub z 1 = z - 1.
Proof.
  unfold Int32.sub, Int32.wrap, Int32.min_signed, Int32.max_signed.
  intros Hlo Hhi.
  rewrite Z.mod_small; lia.
Qed.

Lemma Int32_sub_in_range (x y : Z) : Int32.in_range (Int32.sub x y).
Proof.
  unfold Int32.in_range, Int32.sub, Int32.wrap, Int32.min_signed, Int32.max_signed.
  pose proof (Z.mod_pos_bound (x - y + 2 ^ 31) (2 ^ 32) ltac:(lia)).
  lia.
Qed.

(** *** ListInstances *)

Lemma store_length {A} (idx : nat) (x : A) (l : list A) :
  List.length (store idx x l) = List.length l.
Proof.
  revert idx; induction l as [|y l IH]; intros [|idx]; simpl; auto.
Qed.

(** A nil record anywhere among the elements still to visit ends the loop
    with an error and the nil slice. *)
Lemma convert_from_nil_record (pk : Packages) (instances : list (option VirtualMachine)) :
  In None instances ->
  forall idx resp, exists e, convert_from pk idx instances resp = (None, Some e).
Proof.
  induction instances as [|val rest IH]; intros Hin idx resp.
  - destruct Hin.
  - simpl. destruct val as [vm|].
    + destruct (AzureInstanceToParamsInstance pk vm) as [details [e|]].
      * eexists; reflexivity.
      * apply IH. destruct Hin as [Hval|Hrest]; [discriminate|exact Hrest].
    + eexists; reflexivity.
Qed.

(** The loop never yields a slice together with an error, and the slice it
    yields is as long as the one it was given. *)
Lemma convert_from_all_or_nothing (pk : Packages) (instances : list (option VirtualMachine)) :
  forall idx resp,
    (exists e, convert_from pk idx instances resp = (None, Some e))
    \/ (exists out, convert_from pk idx instances resp = (Some out, None)
                    /\ List.length out = List.length resp).
Proof.
  induction instances as [|val rest IH]; intros idx resp; simpl.
  - right; eexists; split; reflexivity.
  - destruct val as [vm|].
    + destruct (AzureInstanceToParamsInstance pk vm) as [details [e|]].
      * left; eexists; reflexivity.
      * destruct (IH (S idx) (store idx details resp)) as [He|[out [Hout Hlen]]].
        -- left; exact He.
        -- right; exists out; split; [exact Hout|].
           rewrite Hlen; apply store_length.
    + left; eexists; reflexivity.
Qed.

(** When every record before the first nil one converts, the error is the
    nil-record one. *)
Lemma convert_from_first_nil (pk : Packages) (before : list VirtualMachine)
    (rest : list (option VirtualMachine)) :
  (forall vm, In vm before -> snd (AzureInstanceToParamsInstance pk vm) = None) ->
  forall idx resp,
    convert_from pk idx (List.map Some before ++ None :: rest) resp
    = (None, Some (ErrorString "nil vm object in response")).
Proof.
  induction before as [|vm before IH]; intros Hconv idx resp; simpl.
  - reflexivity.
  - pose proof (Hconv vm (or_introl eq_refl)) as Hvm.
    destruct (AzureInstanceToParamsInstance pk vm) as [details e].
    simpl in Hvm; subst e.
    apply IH. intros vm' Hin. apply Hconv. right; exact Hin.
Qed.

(** C8: a nil record in the listing makes [ListInstances] return an error
    and the nil slice, never a slice of any length, whatever the other
    records are. *)
Theorem ListInstances_nil_record (pk : Packages) (a : azureProvider) (poolID : string)
    (instances : list (option VirtualMachine)) :
  ListVirtualMachines (azCli a) poolID = (Some instances, None) ->
  In None instances ->
  (exists e, fst (ListInstances pk a poolID) = (None, Some e))
  /\ (forall out, fst (fst (ListInstances pk a poolID)) <> Some out).
Proof.
  intros Hlist Hin.
  unfold ListInstances. rewrite Hlist. cbn [fst].
  destruct (convert_from_nil_record pk instances Hin 0%nat
              (List.repeat ProviderInstance_zero (List.length instances))) as [e He].
  rewrite He. split.
  - exists e; reflexivity.
  - intros out; discriminate.
Qed.

Lemma ListInstances_nil_record_witness :
  (exists e,
      fst (ListInstances (packages false false false 0)
             (provider (cloud 64 PublicIPAddress_zero
                          (Some [Some {| VM_ID := None; VM_Name := Some "a" |}; None])))
             "pool-1") = (None, Some e))
  /\ (forall out,
         fst (fst (ListInstances (packages false false false 0)
                     (provider (cloud 64 PublicIPAddress_zero
                                  (Some [Some {| VM_ID := None; VM_Name := Some "a" |}; None])))
                     "pool-1")) <> Some out).
Proof.
  apply (ListInstances_nil_record (packages false false false 0)
           (provider (cloud 64 PublicIPAddress_zero
                        (Some [Some {| VM_ID := None; VM_Name := Some "a" |}; None])))
           "pool-1" [Some {| VM_ID := None; VM_Name := Some "a" |}; None]).
  - reflexivity.
  - simpl; right; left; reflexivity.
Defined.

(** C10: a nil listing without error gives an empty slice that is not nil,
    and the nil error. *)
Theorem ListInstances_nil_listing (pk : Packages) (a : azureProvider) (poolID : string) :
  ListVirtualMachines (azCli a) poolID = (None, None) ->
  fst (ListInstances pk a poolID) = (Some [], None).
Proof.
  intros Hlist. unfold ListInstances. rewrite Hlist. reflexivity.
Qed.

Lemma ListInstances_nil_listing_witness :
  fst (ListInstances (packages false false false 0)
         (provider (cloud 64 PublicIPAddress_zero None)) "pool-1") = (Some [], None).
Proof.
  apply (ListInstances_nil_listing (packages false false false 0)
           (provider (cloud 64 PublicIPAddress_zero None)) "pool-1").
  reflexivity.
Defined.

(** An empty listing that is not nil goes through the loop and gives the
    same result. *)
Lemma ListInstances_empty_listing (pk : Packages) (a : azureProvider) (poolID : string) :
  ListVirtualMachines (azCli a) poolID = (Some [], None) ->
  fst (ListInstances pk a poolID) = (Some [], None).
Proof.
  intros Hlist. unfold ListInstances. rewrite Hlist. reflexivity.
Qed.

(** *** DeleteInstance *)

(** [DeleteInstance] succeeds exactly when the client's deletion does. *)
Lemma DeleteInstance_follows_client (a : azureProvider) (instance : string) :
  fst (DeleteInstance a instance) = None
  <-> DeleteResourceGroup (azCli a) instance true = None.
Proof.
  unfold DeleteInstance.
  destruct (DeleteResourceGroup (azCli a) instance true); cbn [fst];
    split; intros H; try reflexivity; discriminate.
Qed.



(** Over a subscription, deletion succeeds whether the group exists or not. *)
Lemma DeleteInstance_absent_group (a : azureProvider) (groups : list string)
    (instance : string) :
  DeleteResourceGroup (azCli a) = client_DeleteResourceGroup (subscription groups) ->
  fst (DeleteInstance a instance) = None.
Proof.
  intros Hcli. apply DeleteInstance_follows_client. rewrite Hcli.
  unfold client_DeleteResourceGroup, subscription.
  destruct (List.existsb (String.eqb instance) groups); reflexivity.
Qed.

(** *** CreateInstance *)

(** C5: a request for any architecture but [amd64] is refused at once, with
    the unsupported-architecture error and without a single client
    operation. *)
Theorem CreateInstance_unsupported_architecture (pk : Packages) (a : azureProvider)
    (bootstrapParams : BootstrapInstance) :
  OSArch bootstrapParams <> Amd64 ->
  CreateInstance pk a bootstrapParams
  = (Returns ProviderInstance_zero
       (Some (Errorf_invalid_architecture (OSArch bootstrapParams) Amd64)),
     []).
Proof.
  intros Harch.
  apply String.eqb_neq in Harch.
  unfold CreateInstance, CreateInstance_body. rewrite Harch. reflexivity.
Qed.

Lemma CreateInstance_unsupported_architecture_witness :
  CreateInstance (packages true true true 0)
    (provider (cloud 64 address_20_1_2_3 None)) (runner "arm64")
  = (Returns ProviderInstance_zero
       (Some (Errorf_invalid_architecture "arm64" "amd64")),
     []).
Proof.
  apply (CreateInstance_unsupported_architecture (packages true true true 0)
           (provider (cloud 64 address_20_1_2_3 None)) (runner "arm64")).
  simpl. discriminate.
Defined.

(** The deletion's answer is never looked at: two clients that differ in
    [DeleteResourceGroup] only give the same run. *)
Lemma CreateInstance_ignores_rollback_result (pk : Packages) (a : azureProvider)
    (bootstrapParams : BootstrapInstance) (answer : string -> bool -> option error) :
  CreateInstance pk (on_client (with_DeleteResourceGroup answer) a) bootstrapParams
  = CreateInstance pk a bootstrapParams.
Proof.
  reflexivity.
Qed.

(** C4: without ephemeral storage the maximum ephemeral disk size is never
    queried, so the run is the same for every answer the size query could
    give, and the size handed to virtual-machine creation is the spec's
    [DiskSizeGB] as it stands. *)
Theorem CreateInstance_without_ephemeral_storage (pk : Packages) (a : azureProvider)
    (bootstrapParams : BootstrapInstance) :
  UseEphemeralStorage
    (fst (GetRunnerSpecFromBootstrapParams pk bootstrapParams (controllerID a) (cfg a)))
  = false ->
  (forall answer,
      CreateInstance pk (on_client (with_GetMaxEphemeralDiskSize answer) a) bootstrapParams
      = CreateInstance pk a bootstrapParams)
  /\ (forall vmSize,
         ~ In (CallGetMaxEphemeralDiskSize vmSize) (snd (CreateInstance pk a bootstrapParams)))
  /\ (forall spec nicID tags cacheSize,
         In (CallCreateVirtualMachine spec nicID tags cacheSize)
            (snd (CreateInstance pk a bootstrapParams)) ->
         cacheSize
         = DiskSizeGB
             (fst (GetRunnerSpecFromBootstrapParams pk bootstrapParams
                     (controllerID a) (cfg a)))).
Proof.
  intros Heph.
  open_run a pk res.
  run_body.
  all: intros ->; cbn [fst snd] in *; try congruence.
  all: split; [reflexivity|split]; leaf.
Qed.

Lemma CreateInstance_without_ephemeral_storage_witness :
  In (CallCreateVirtualMachine
        (spec_of false false false 127 (runner "amd64") "controller-1")
        "nic/garm-runner-1" [("garm-controller-id", "controller-1")] 127)
     (snd (CreateInstance (packages false false false 127)
             (provider (cloud 64 PublicIPAddress_zero None)) (runner "amd64")))
  /\ (forall answer,
         CreateInstance (packages false false false 127)
           (on_client (with_GetMaxEphemeralDiskSize answer)
              (provider (cloud 64 PublicIPAddress_zero None)))
           (runner "amd64")
         = CreateInstance (packages false false false 127)
             (provider (cloud 64 PublicIPAddress_zero None)) (runner "amd64"))
  /\ (forall vmSize,
         ~ In (CallGetMaxEphemeralDiskSize vmSize)
             (snd (CreateInstance (packages false false false 127)
                     (provider (cloud 64 PublicIPAddress_zero None)) (runner "amd64")))).
Proof.
  split.
  - vm_compute. tauto.
  - pose proof (CreateInstance_without_ephemeral_storage (packages false false false 127)
                  (provider (cloud 64 PublicIPAddress_zero None)) (runner "amd64")
                  eq_refl) as [Hsame [Hquery _]].
    split; [exact Hsame|exact Hquery].
Defined.

(** Lines 71-92 on an explicit size that fits: the size query is issued and
    the explicit size is the cache size, with nothing returned. *)
Lemma resolve_cacheSize_explicit (cli : AzureCli) (spec : RunnerSpec) (maxSize : Z) :
  UseEphemeralStorage spec = true ->
  GetMaxEphemeralDiskSize cli (VMSize spec) = (maxSize, None) ->
  DiskSizeGB spec <> 0 ->
  DiskSizeGB spec <= (if Confidential spec then Int32.sub maxSize 1 else maxSize) ->
  forall fr,
    resolve_cacheSize cli spec fr
    = Continue (DiskSizeGB spec)
        {| err := err fr;
           ops := (ops fr ++ [CallGetMaxEphemeralDiskSize (VMSize spec)])%list;
           deferred := deferred fr |}.
Proof.
  intros Heph Hmax Hdisk Hfits fr.
  unfold resolve_cacheSize, bind, azure, if_local_err_return, ret.
  rewrite Heph, Hmax. cbn [err ops deferred].
  apply Z.ltb_ge in Hfits. rewrite Hfits.
  destruct (Z.eqb_spec (DiskSizeGB spec) 0) as [Hzero|_]; [contradiction|].
  reflexivity.
Qed.

(** C2: with ephemeral storage and an explicit size, a size above the
    adjusted maximum ends the call with the capacity error, which carries the
    VM size, the adjusted maximum and the requested size, after the size
    query and nothing else.  A size up to the adjusted maximum, the maximum
    itself included, is accepted: lines 71-92 yield it as the cache size,
    the call goes on to create the resource group, it never returns the
    capacity error, every virtual machine it asks for is asked for with that
    size, and a call that returns the nil error has asked for one.  The
    adjusted maximum is the client's answer, less 1 for a confidential
    VM. *)
Theorem CreateInstance_explicit_ephemeral_size (pk : Packages) (a : azureProvider)
    (bootstrapParams : BootstrapInstance) (spec : RunnerSpec)
    (imgDetails : ImageDetails) (maxSize : Z) :
  OSArch bootstrapParams = Amd64 ->
  GetRunnerSpecFromBootstrapParams pk bootstrapParams (controllerID a) (cfg a)
  = (spec, None) ->
  RunnerSpec_ImageDetails pk spec = (imgDetails, None) ->
  UseEphemeralStorage spec = true ->
  GetMaxEphemeralDiskSize (azCli a) (VMSize spec) = (maxSize, None) ->
  DiskSizeGB spec <> 0 ->
  let adjusted := if Confidential spec then Int32.sub maxSize 1 else maxSize in
  (Confidential spec = false -> adjusted = maxSize)
  /\ (Confidential spec = true -> Int32.min_signed < maxSize <= Int32.max_signed ->
      adjusted = maxSize - 1)
  /\ (adjusted < DiskSizeGB spec ->
      CreateInstance pk a bootstrapParams
      = (Returns ProviderInstance_zero
           (Some (Errorf_max_ephemeral (VMSize spec) adjusted (DiskSizeGB spec))),
         [CallGetMaxEphemeralDiskSize (VMSize spec)]))
  /\ (DiskSizeGB spec <= adjusted ->
      (forall fr,
          resolve_cacheSize (azCli a) spec fr
          = Continue (DiskSizeGB spec)
              {| err := err fr;
                 ops := (ops fr ++ [CallGetMaxEphemeralDiskSize (VMSize spec)])%list;
                 deferred := deferred fr |})
      /\ (exists rest,
             snd (CreateInstance pk a bootstrapParams)
             = CallGetMaxEphemeralDiskSize (VMSize spec)
               :: CallCreateResourceGroup (Name (BootstrapParams spec)) (Tags spec)
               :: rest)
      /\ (forall instance vmSize maximum requested,
             fst (CreateInstance pk a bootstrapParams)
             <> Returns instance (Some (Errorf_max_ephemeral vmSize maximum requested)))
      /\ (forall spec' nicID tags cacheSize,
             In (CallCreateVirtualMachine spec' nicID tags cacheSize)
                (snd (CreateInstance pk a bootstrapParams)) ->
             cacheSize = DiskSizeGB spec)
      /\ (forall instance,
             fst (CreateInstance pk a bootstrapParams) = Returns instance None ->
             exists nicID,
               In (CallCreateVirtualMachine spec nicID (Tags spec) (DiskSizeGB spec))
                  (snd (CreateInstance pk a bootstrapParams)))).
Proof.
  intros Harch Hspec Himg Heph Hmax Hdisk adjusted.
  split; [|split; [|split]].
  { intros Hconf; subst adjusted; rewrite Hconf; reflexivity. }
  { intros Hconf Hrange; subst adjusted; rewrite Hconf.
    apply Int32_sub_1; lia. }
  { subst adjusted. intros Hexceeds.
    apply Z.ltb_lt in Hexceeds.
    apply (proj2 (String.eqb_eq _ _)) in Harch.
    open_run a pk res.
    run_body.
    all: intros ->; reflexivity. }
  subst adjusted. intros Hfits.
  split; [apply (resolve_cacheSize_explicit _ _ maxSize); assumption|].
  assert (Hnonzero : (DiskSizeGB spec =? 0) = false) by (apply Z.eqb_neq; exact Hdisk).
  apply Z.ltb_ge in Hfits.
  apply (proj2 (String.eqb_eq _ _)) in Harch.
  open_run a pk res.
  run_body.
  all: intros ->; cbn [fst snd]; rewrite ?Hnonzero.
  all: split; [eexists; reflexivity|].
  all: split; [intros instance vmSize maximum requested Hreturned; discriminate Hreturned|].
  all: split; [leaf|].
  all: intros instance Hreturned; try discriminate Hreturned.
  all: eexists; cbn [In]; repeat first [left; reflexivity | right].
Qed.

Lemma CreateInstance_explicit_ephemeral_size_witness :
  CreateInstance (packages true false true 100)
    (provider (cloud 64 address_20_1_2_3 None)) (runner "amd64")
  = (Returns ProviderInstance_zero
       (Some (Errorf_max_ephemeral "Standard_D2ds_v5" 64 100)),
     [CallGetMaxEphemeralDiskSize "Standard_D2ds_v5"])
  /\ (exists rest,
         snd (CreateInstance (packages true true true 63)
                (provider (cloud 64 address_20_1_2_3 None)) (runner "amd64"))
         = CallGetMaxEphemeralDiskSize "Standard_D2ds_v5"
           :: CallCreateResourceGroup "garm-runner-1"
                [("garm-controller-id", "controller-1")]
           :: rest)
  /\ (exists nicID,
         In (CallCreateVirtualMachine
               (spec_of true true true 63 (runner "amd64") "controller-1")
               nicID [("garm-controller-id", "controller-1")] 63)
            (snd (CreateInstance (packages true true true 63)
                    (provider (cloud 64 address_20_1_2_3 None)) (runner "amd64")))).
Proof.
  split.
  - apply (CreateInstance_explicit_ephemeral_size (packages true false true 100)
             (provider (cloud 64 address_20_1_2_3 None)) (runner "amd64")
             (spec_of true false true 100 (runner "amd64") "controller-1")
             {| SKU := "22_04-lts-gen2"; Version := "latest" |} 64).
    + reflexivity.
    + reflexivity.
    + reflexivity.
    + reflexivity.
    + reflexivity.
    + simpl; lia.
    + simpl; lia.
  - destruct (CreateInstance_explicit_ephemeral_size (packages true true true 63)
                (provider (cloud 64 address_20_1_2_3 None)) (runner "amd64")
                (spec_of true true true 63 (runner "amd64") "controller-1")
                {| SKU := "22_04-lts-gen2"; Version := "latest" |} 64)
      as (_ & _ & _ & Haccepted).
    + reflexivity.
    + reflexivity.
    + reflexivity.
    + reflexivity.
    + reflexivity.
    + simpl; lia.
    + destruct Haccepted as (_ & Hgroup & _ & _ & Hmachine).
      * vm_compute; discriminate.
      * split; [exact Hgroup|].
        apply (Hmachine
                 (assemble_instance
                    (spec_of true true true 63 (runner "amd64") "controller-1")
                    {| SKU := "22_04-lts-gen2"; Version := "latest" |} "20.1.2.3")).
        vm_compute. reflexivity.
Defined.



(** The fields of the record lines 145-161 build. *)
Lemma assemble_instance_fields (spec : RunnerSpec) (imgDetails : ImageDetails)
    (pubIP : string) :
  PI_ProviderID (assemble_instance spec imgDetails pubIP) = Name (BootstrapParams spec)
  /\ PI_Name (assemble_instance spec imgDetails pubIP) = Name (BootstrapParams spec)
  /\ PI_OSType (assemble_instance spec imgDetails pubIP) = OSType (BootstrapParams spec)
  /\ PI_OSArch (assemble_instance spec imgDetails pubIP) = OSArch (BootstrapParams spec)
  /\ PI_OSName (assemble_instance spec imgDetails pubIP) = SKU imgDetails
  /\ PI_OSVersion (assemble_instance spec imgDetails pubIP) = Version imgDetails
  /\ PI_Status (assemble_instance spec imgDetails pubIP) = "running"
  /\ PI_Addresses (assemble_instance spec imgDetails pubIP)
     = if String.eqb pubIP "" then []
       else [{| Address_Address := pubIP; Address_Type := PublicAddress |}].
Proof.
  unfold assemble_instance.
  destruct (String.eqb pubIP ""); cbn; repeat split; reflexivity.
Qed.

(** C6: the instance a successful call returns is named (and identified) by
    the name in the request the spec carries, takes OS name and version from
    the image details, says [running], and lists the public address of the
    public IP when one was requested and came back with an address. *)
Theorem CreateInstance_returned_instance (pk : Packages) (a : azureProvider)
    (bootstrapParams : BootstrapInstance) (instance : ProviderInstance)
    (issued : list call) :
  CreateInstance pk a bootstrapParams = (Returns instance None, issued) ->
  let spec :=
    fst (GetRunnerSpecFromBootstrapParams pk bootstrapParams (controllerID a) (cfg a)) in
  let imgDetails := fst (RunnerSpec_ImageDetails pk spec) in
  let publicIP := fst (CreatePublicIP (azCli a) (Name (BootstrapParams spec))) in
  PI_ProviderID instance = Name (BootstrapParams spec)
  /\ PI_Name instance = Name (BootstrapParams spec)
  /\ (BootstrapParams spec = bootstrapParams ->
      PI_ProviderID instance = Name bootstrapParams
      /\ PI_Name instance = Name bootstrapParams)
  /\ PI_OSName instance = SKU imgDetails
  /\ PI_OSVersion instance = Version imgDetails
  /\ PI_Status instance = "running"
  /\ (forall properties address,
         AllocatePublicIP spec = true ->
         Properties publicIP = Some properties ->
         IPAddress properties = Some address ->
         address <> "" ->
         PI_Addresses instance
         = [{| Address_Address := address; Address_Type := PublicAddress |}])
  /\ (AllocatePublicIP spec = false -> PI_Addresses instance = []).
Proof.
  intros Hrun spec imgDetails publicIP.
  subst spec imgDetails publicIP. revert Hrun.
  open_run a pk res.
  run_body.
  all: intros -> Hrun; try discriminate Hrun.
  all: injection Hrun as <- <-; cbn [fst snd] in *.
  all: match goal with
       | |- context [assemble_instance ?s ?i ?ip] =>
           destruct (assemble_instance_fields s i ip)
             as (Hid & Hname & _ & _ & Hos & Hversion & Hstatus & Haddresses)
       end.
  all: repeat split; try assumption; try congruence.
  all: intros; try discriminate; try congruence.
  all: rewrite Haddresses;
    repeat match goal with
           | H : Properties _ = _ |- _ => rewrite H
           | H : IPAddress _ = _ |- _ => rewrite H
           end;
    try reflexivity.
  all: match goal with
       | |- context [String.eqb ?x ""] => destruct (String.eqb_spec x ""); congruence
       end.
Qed.

Lemma CreateInstance_returned_instance_witness :
  exists instance,
    fst (CreateInstance (packages true true true 0)
           (provider (cloud 64 address_20_1_2_3 None)) (runner "amd64"))
    = Returns instance None
    /\ PI_ProviderID instance = "garm-runner-1"
    /\ PI_Name instance = "garm-runner-1"
    /\ PI_OSName instance = "22_04-lts-gen2"
    /\ PI_OSVersion instance = "latest"
    /\ PI_Status instance = "running"
    /\ PI_Addresses instance
       = [{| Address_Address := "20.1.2.3"; Address_Type := PublicAddress |}].
Proof.
  assert (Hrun : exists instance,
             CreateInstance (packages true true true 0)
               (provider (cloud 64 address_20_1_2_3 None)) (runner "amd64")
             = (Returns instance None,
                snd (CreateInstance (packages true true true 0)
                       (provider (cloud 64 address_20_1_2_3 None)) (runner "amd64")))).
  { eexists.
    rewrite (surjective_pairing
               (CreateInstance (packages true true true 0)
                  (provider (cloud 64 address_20_1_2_3 None)) (runner "amd64"))) at 1.
    f_equal. vm_compute. reflexivity. }
  destruct Hrun as [instance Hrun].
  exists instance. split; [rewrite Hrun; reflexivity|].
  destruct (CreateInstance_returned_instance (packages true true true 0)
              (provider (cloud 64 address_20_1_2_3 None)) (runner "amd64") instance
              _ Hrun)
    as (_ & _ & Hname & Hos & Hversion & Hstatus & Haddresses & _).
  destruct (Hname eq_refl) as [Hid Hname'].
  repeat split; try assumption.
  apply (Haddresses {| IPAddress := Some "20.1.2.3" |} "20.1.2.3");
    try reflexivity.
  discriminate.
Defined.

(** C7, as the code has it: a public IP that comes back with its identifier
    is accepted with or without an address.  The call goes on to the
    security group, hands the identifier to the network interface, and, when
    it completes, returns an instance without addresses if the address (or
    the properties holding it) is missing. *)
Theorem CreateInstance_public_ip_without_address (pk : Packages) (a : azureProvider)
    (bootstrapParams : BootstrapInstance) (publicIP : PublicIPAddress) (id : string) :
  let spec :=
    fst (GetRunnerSpecFromBootstrapParams pk bootstrapParams (controllerID a) (cfg a)) in
  let name := Name (BootstrapParams spec) in
  In (CallCreatePublicIP name) (snd (CreateInstance pk a bootstrapParams)) ->
  CreatePublicIP (azCli a) name = (publicIP, None) ->
  PublicIP_ID publicIP = Some id ->
  In (CallCreateNetworkSecurityGroup name spec) (snd (CreateInstance pk a bootstrapParams))
  /\ (forall name' subnetID nsgID pubIPID accel,
         In (CallCreateNetWorkInterface name' subnetID nsgID pubIPID accel)
            (snd (CreateInstance pk a bootstrapParams)) ->
         pubIPID = id)
  /\ (forall instance,
         fst (CreateInstance pk a bootstrapParams) = Returns instance None ->
         (Properties publicIP = None
          \/ exists properties,
               Properties publicIP = Some properties /\ IPAddress properties = None) ->
         PI_Addresses instance = []).
Proof.
  intros spec name. subst spec name.
  open_run a pk res.
  run_body.
  all: intros -> Hin Hip Hid; cbn [fst snd] in *; in_cases; try congruence.
  all: split; [simpl; tauto|split]; leaf.
  all: match goal with
       | H : _ \/ _ |- _ => destruct H as [Hnone|(properties & Hsome & Hnone)]
       end.
  all: unfold assemble_instance; rewrite ?Hsome, ?Hnone; reflexivity.
Qed.

Lemma CreateInstance_public_ip_without_address_witness :
  In (CallCreateNetworkSecurityGroup "garm-runner-1"
        (spec_of false false true 0 (runner "amd64") "controller-1"))
     (snd (CreateInstance (packages false false true 0)
             (provider (cloud 64 {| PublicIP_ID := Some "pip/garm-runner-1";
                                    Properties := None |} None))
             (runner "amd64")))
  /\ exists instance,
       fst (CreateInstance (packages false false true 0)
              (provider (cloud 64 {| PublicIP_ID := Some "pip/garm-runner-1";
                                     Properties := None |} None))
              (runner "amd64")) = Returns instance None
       /\ PI_Addresses instance = [].
Proof.
  destruct (CreateInstance_public_ip_without_address (packages false false true 0)
              (provider (cloud 64 {| PublicIP_ID := Some "pip/garm-runner-1";
                                     Properties := None |} None))
              (runner "amd64")
              {| PublicIP_ID := Some "pip/garm-runner-1"; Properties := None |}
              "pip/garm-runner-1")
    as (Hnsg & _ & Haddresses).
  - vm_compute. tauto.
  - reflexivity.
  - reflexivity.
  - split; [exact Hnsg|].
    eexists. split; [vm_compute; reflexivity|].
    apply Haddresses; [vm_compute; reflexivity|left; reflexivity].
Defined.

(** C7 as stated fails: a public IP that comes back without its identifier
    makes the call panic at [*publicIP.ID], address or no address. *)
Lemma CreateInstance_public_ip_without_id_panics :
  fst (CreateInstance (packages false false true 0)
         (provider (cloud 64 {| PublicIP_ID := None;
                                Properties := Some {| IPAddress := Some "20.1.2.3" |} |}
                      None))
         (runner "amd64"))
  = Panics "invalid memory address or nil pointer dereference".
Proof.
  vm_compute. reflexivity.
Qed.

(** X17: the rollback as the code performs it.  When one of the operations after
    the creation of the resource group is answered with an error, the call
    returns that error under the step's text; the resource group, created
    once, is deleted once, as the last operation, when the step assigns the
    function-scope [err], and is not deleted when the step declares an [err]
    of its own. *)
Lemma CreateInstance_rollback (pk : Packages) (a : azureProvider)
    (bootstrapParams : BootstrapInstance) (c : call) (s : step) (e : error) :
  let spec :=
    fst (GetRunnerSpecFromBootstrapParams pk bootstrapParams (controllerID a) (cfg a)) in
  let name := Name (BootstrapParams spec) in
  In c (snd (CreateInstance pk a bootstrapParams)) ->
  provisioning_step c = Some s ->
  answered_error (azCli a) c = Some e ->
  fst (CreateInstance pk a bootstrapParams)
  = Returns ProviderInstance_zero (Some (Errorf_w (failure_context s) e))
  /\ List.filter is_create_group (snd (CreateInstance pk a bootstrapParams))
     = [CallCreateResourceGroup name (Tags spec)]
  /\ List.filter is_delete_group (snd (CreateInstance pk a bootstrapParams))
     = (if declares_own_err s then [] else [CallDeleteResourceGroup name true])
  /\ (declares_own_err s = false ->
      exists before,
        snd (CreateInstance pk a bootstrapParams)
        = (before ++ [CallDeleteResourceGroup name true])%list).
Proof.
  intros spec name. subst spec name.
  open_run a pk res.
  run_body.
  all: intros -> Hin Hstep Herr; cbn [fst snd] in *; in_cases.
  all: cbn in Hstep; try discriminate Hstep.
  all: injection Hstep as <-.
  all: cbn [answered_error CreateVirtualNetwork CreateSubnet CreatePublicIP
            CreateNetworkSecurityGroup CreateNetWorkInterface CreateVirtualMachine] in Herr.
  all: repeat match goal with
              | H : ?x = _, H' : context [?x] |- _ => rewrite H in H'
              end;
       cbn [fst snd] in *; try discriminate Herr.
  all: try (injection Herr as <-).
  all: cbn [List.filter is_create_group is_delete_group declares_own_err
            failure_context];
       repeat split; try reflexivity; intros Hown; try discriminate Hown.
  all: match goal with
       | |- exists before, ?l = _ => exists (List.removelast l); reflexivity
       end.
Qed.

(** C1: the specification wants the resource group deleted exactly once
    after a failure of any step that follows its creation.  Here the
    creation of the virtual machine fails after every earlier step
    succeeded: the call returns the step's error, the resource group was
    created once, and it is not deleted. *)
Theorem CreateInstance_vm_failure_keeps_resource_group :
  let result :=
    CreateInstance (packages false false false 0)
      (provider (cloud_failing_at StepVirtualMachine PublicIPAddress_zero))
      (runner "amd64") in
  fst result
  = Returns ProviderInstance_zero (Some (Errorf_w "failed to create VM" broken))
  /\ count is_create_group (snd result) = 1%nat
  /\ count is_delete_group (snd result) = 0%nat.
Proof.
  vm_compute. repeat split; reflexivity.
Qed.

(** The same happens when the creation of the public IP fails. *)
Example CreateInstance_public_ip_failure_keeps_resource_group :
  let result :=
    CreateInstance (packages false false true 0)
      (provider (cloud_failing_at StepPublicIP PublicIPAddress_zero))
      (runner "amd64") in
  fst result
  = Returns ProviderInstance_zero (Some (Errorf_w "failed to create public IP" broken))
  /\ count is_create_group (snd result) = 1%nat
  /\ count is_delete_group (snd result) = 0%nat.
Proof.
  vm_compute. repeat split; reflexivity.
Qed.

(** When the creation of the network interface fails after resource group,
    network, subnet and public IP succeeded, the resource group is deleted
    once, last, and no virtual machine is asked for. *)
Example CreateInstance_nic_failure_deletes_resource_group :
  let result :=
    CreateInstance (packages false false true 0)
      (provider (cloud_failing_at StepInterface address_20_1_2_3))
      (runner "amd64") in
  fst result
  = Returns ProviderInstance_zero (Some (Errorf_w "failed to create NIC" broken))
  /\ count is_create_group (snd result) = 1%nat
  /\ List.filter is_delete_group (snd result)
     = [CallDeleteResourceGroup "garm-runner-1" true]
  /\ List.last (snd result) (CallStartVM "") = CallDeleteResourceGroup "garm-runner-1" true
  /\ List.filter (fun c => match provisioning_step c with
                           | Some StepVirtualMachine => true
                           | _ => false
                           end) (snd result) = [].
Proof.
  vm_compute. repeat split; reflexivity.
Qed.

(** A panic at [*publicIP.ID] leaves the resource group as well: the
    function-scope [err] is nil when the deferred closure runs. *)
Example CreateInstance_panic_keeps_resource_group :
  let result :=
    CreateInstance (packages false false true 0)
      (provider (cloud 64 PublicIPAddress_zero None)) (runner "amd64") in
  fst result = Panics "invalid memory address or nil pointer dereference"
  /\ count is_create_group (snd result) = 1%nat
  /\ count is_delete_group (snd result) = 0%nat.
Proof.
  vm_compute. repeat split; reflexivity.
Qed.

(** The message of the capacity error names the VM size, the maximum and
    the requested size. *)
Example capacity_error_message :
  Error (Errorf_max_ephemeral "Standard_D2ds_v5" 64 100)
  = "maximul ephemeral disk size for Standard_D2ds_v5 is 64 GB (requested 100)".
Proof.
  reflexivity.
Qed.

(** With a confidential VM, a maximum of 64 and no explicit size, the
    virtual machine gets a 63 GB disk. *)
Example confidential_default_size :
  List.filter (fun c => match provisioning_step c with
                        | Some StepVirtualMachine => true
                        | _ => false
                        end)
    (snd (CreateInstance (packages true true false 0)
            (provider (cloud 64 PublicIPAddress_zero None)) (runner "amd64")))
  = [CallCreateVirtualMachine
       (spec_of true true false 0 (runner "amd64") "controller-1")
       "nic/garm-runner-1" [("garm-controller-id", "controller-1")] 63].
Proof.
  vm_compute. reflexivity.
Qed.

(** *** The order and the arguments of the operations *)

(** X1: whatever the collaborators answer, the operations of a run come in
    the order of the text, each at most once, and none of them belongs to
    another method. *)
Theorem CreateInstance_operation_order (pk : Packages) (a : azureProvider)
    (bootstrapParams : BootstrapInstance) :
  ascending (List.map rank (snd (CreateInstance pk a bootstrapParams))) = true
  /\ List.forallb (fun c => Nat.ltb (rank c) 9)
       (snd (CreateInstance pk a bootstrapParams)) = true.
Proof.
  open_run a pk res.
  run_body.
  all: intros ->; split; reflexivity.
Qed.

(** X2: every operation of a run but the size query is handed the name in
    the request the spec carries, and a deletion is a forced one. *)
Theorem CreateInstance_one_name (pk : Packages) (a : azureProvider)
    (bootstrapParams : BootstrapInstance) (c : call) :
  let spec :=
    fst (GetRunnerSpecFromBootstrapParams pk bootstrapParams (controllerID a) (cfg a)) in
  In c (snd (CreateInstance pk a bootstrapParams)) ->
  (c = CallGetMaxEphemeralDiskSize (VMSize spec)
   \/ name_given c = Some (Name (BootstrapParams spec)))
  /\ (is_delete_group c = true ->
      c = CallDeleteResourceGroup (Name (BootstrapParams spec)) true).
Proof.
  intros spec; subst spec.
  open_run a pk res.
  run_body.
  all: intros -> Hin; cbn [fst snd] in *.
  all: repeat match goal with
              | H : In _ [] |- _ => destruct H
              | H : In _ (_ :: _) |- _ => destruct H as [<-|H]
              end.
  all: cbn; (split; [first [left; reflexivity | right; reflexivity]|]);
    intros; try discriminate; reflexivity.
Qed.

(** X3: the network interface is created from the identifiers the subnet
    and the security group came back with, and from the identifier of the
    public IP or the empty string when none was requested; the virtual
    machine is created from the spec, its tags and the identifier the
    network interface came back with. *)
Theorem CreateInstance_identifiers_flow (pk : Packages) (a : azureProvider)
    (bootstrapParams : BootstrapInstance) :
  let spec :=
    fst (GetRunnerSpecFromBootstrapParams pk bootstrapParams (controllerID a) (cfg a)) in
  let name := Name (BootstrapParams spec) in
  let cli := azCli a in
  (forall name' subnetID nsgID pubIPID accel,
      In (CallCreateNetWorkInterface name' subnetID nsgID pubIPID accel)
         (snd (CreateInstance pk a bootstrapParams)) ->
      ID (fst (CreateSubnet cli name (VirtualNetworkCIDR spec))) = Some subnetID
      /\ ID (fst (CreateNetworkSecurityGroup cli name spec)) = Some nsgID
      /\ (if AllocatePublicIP spec
          then PublicIP_ID (fst (CreatePublicIP cli name)) = Some pubIPID
          else pubIPID = "")
      /\ accel = UseAcceleratedNetworking spec)
  /\ (forall spec' nicID tags cacheSize,
         In (CallCreateVirtualMachine spec' nicID tags cacheSize)
            (snd (CreateInstance pk a bootstrapParams)) ->
         spec' = spec /\ tags = Tags spec
         /\ exists subnetID nsgID pubIPID,
              In (CallCreateNetWorkInterface name subnetID nsgID pubIPID
                    (UseAcceleratedNetworking spec))
                 (snd (CreateInstance pk a bootstrapParams))
              /\ CreateNetWorkInterface cli name subnetID nsgID pubIPID
                   (UseAcceleratedNetworking spec)
                 = ({| ID := Some nicID |}, None)).
Proof.
  intros spec name cli; subst spec name cli.
  open_run a pk res.
  run_body.
  all: intros ->; cbn [fst snd] in *; split; intros; in_cases.
  all: repeat match goal with
              | H : ?x = _ |- context [?x] => rewrite H
              end; cbn [fst snd].
  all: try (repeat split; congruence).
  all: split; [reflexivity|split; [reflexivity|]].
  all: do 3 eexists; split; [cbn; tauto|].
  all: match goal with
       | H : ?x = (?r, None), H' : ID ?r = Some _ |- ?x = _ =>
           rewrite H; destruct r; cbn in H'; rewrite H'; reflexivity
       end.
Qed.

(** X4: a call that returns an error returns the zero instance with it; a
    call that returns the nil error has issued the creation of the virtual
    machine last, was answered without error, and has deleted nothing. *)
Theorem CreateInstance_outcome (pk : Packages) (a : azureProvider)
    (bootstrapParams : BootstrapInstance) :
  let spec :=
    fst (GetRunnerSpecFromBootstrapParams pk bootstrapParams (controllerID a) (cfg a)) in
  (forall instance e,
      fst (CreateInstance pk a bootstrapParams) = Returns instance (Some e) ->
      instance = ProviderInstance_zero)
  /\ (forall instance,
         fst (CreateInstance pk a bootstrapParams) = Returns instance None ->
         List.filter is_delete_group (snd (CreateInstance pk a bootstrapParams)) = []
         /\ exists before nicID cacheSize,
              snd (CreateInstance pk a bootstrapParams)
              = (before ++ [CallCreateVirtualMachine spec nicID (Tags spec) cacheSize])%list
              /\ CreateVirtualMachine (azCli a) spec nicID (Tags spec) cacheSize = None).
Proof.
  intros spec; subst spec.
  open_run a pk res.
  run_body.
  all: intros ->; cbn [fst snd] in *; split; intros; settle.
  all: split; [reflexivity|].
  all: match goal with
       | |- exists before nicID cacheSize, ?l = _ /\ _ =>
           exists (List.removelast l)
       end.
  all: do 2 eexists; split; [reflexivity|assumption].
Qed.

(** X5: a call panics only where an identifier is missing.  By then the
    resource group exists, nothing deletes it, and no virtual machine has
    been asked for. *)
Theorem CreateInstance_panic (pk : Packages) (a : azureProvider)
    (bootstrapParams : BootstrapInstance) (reason : string) :
  let spec :=
    fst (GetRunnerSpecFromBootstrapParams pk bootstrapParams (controllerID a) (cfg a)) in
  let name := Name (BootstrapParams spec) in
  let cli := azCli a in
  fst (CreateInstance pk a bootstrapParams) = Panics reason ->
  List.filter is_create_group (snd (CreateInstance pk a bootstrapParams))
  = [CallCreateResourceGroup name (Tags spec)]
  /\ snd (CreateResourceGroup cli name (Tags spec)) = None
  /\ List.filter is_delete_group (snd (CreateInstance pk a bootstrapParams)) = []
  /\ List.filter (fun c => Nat.eqb (rank c) 7)
       (snd (CreateInstance pk a bootstrapParams)) = []
  /\ ((AllocatePublicIP spec = true
       /\ PublicIP_ID (fst (CreatePublicIP cli name)) = None)
      \/ ID (fst (CreateSubnet cli name (VirtualNetworkCIDR spec))) = None
      \/ ID (fst (CreateNetworkSecurityGroup cli name spec)) = None
      \/ exists subnetID nsgID pubIPID,
           In (CallCreateNetWorkInterface name subnetID nsgID pubIPID
                 (UseAcceleratedNetworking spec))
              (snd (CreateInstance pk a bootstrapParams))
           /\ ID (fst (CreateNetWorkInterface cli name subnetID nsgID pubIPID
                         (UseAcceleratedNetworking spec))) = None).
Proof.
  intros spec name cli; subst spec name cli.
  open_run a pk res.
  run_body.
  all: intros -> Hpanic; cbn [fst snd] in *; try discriminate Hpanic.
  all: repeat match goal with
              | H : ?x = _ |- context [?x] => rewrite H
              end; cbn [fst snd].
  all: repeat (split; [reflexivity|]).
  all: try (left; split; reflexivity).
  all: try (right; left; reflexivity).
  all: try (right; right; left; reflexivity).
  all: right; right; right; do 3 eexists;
    (split; [cbn [In]; repeat first [left; reflexivity | right]|]).
  all: repeat match goal with
              | H : ?x = _ |- context [?x] => rewrite H
              end; reflexivity.
Qed.

(** *** Failures and the resource group *)

(** X6: the resource group is deleted only by a call that returns the error
    of the virtual network, the subnet, the security group or the network
    interface; the group deleted is the one created, and its creation had
    succeeded. *)
Theorem CreateInstance_deletes_only_after_failure (pk : Packages) (a : azureProvider)
    (bootstrapParams : BootstrapInstance) (name' : string) (force : bool) :
  let spec :=
    fst (GetRunnerSpecFromBootstrapParams pk bootstrapParams (controllerID a) (cfg a)) in
  let name := Name (BootstrapParams spec) in
  In (CallDeleteResourceGroup name' force) (snd (CreateInstance pk a bootstrapParams)) ->
  name' = name /\ force = true
  /\ In (CallCreateResourceGroup name (Tags spec)) (snd (CreateInstance pk a bootstrapParams))
  /\ snd (CreateResourceGroup (azCli a) name (Tags spec)) = None
  /\ exists c s e,
       In c (snd (CreateInstance pk a bootstrapParams))
       /\ provisioning_step c = Some s
       /\ declares_own_err s = false
       /\ answered_error (azCli a) c = Some e
       /\ fst (CreateInstance pk a bootstrapParams)
          = Returns ProviderInstance_zero (Some (Errorf_w (failure_context s) e)).
Proof.
  intros spec name; subst spec name.
  open_run a pk res.
  run_body.
  all: intros -> Hin; cbn [fst snd] in *; in_cases.
  all: repeat match goal with
              | H : ?x = _ |- context [?x] => rewrite H
              end; cbn [fst snd].
  all: split; [reflexivity|split; [reflexivity|]].
  all: split; [cbn [In]; repeat first [left; reflexivity | right]|].
  all: split; [reflexivity|].
  all: match goal with
       | |- exists c s e, In c ?l /\ _ =>
           exists (List.last (List.removelast l) (CallStartVM ""))
       end.
  all: cbn [List.last List.removelast provisioning_step];
    do 2 eexists; split; [cbn [In]; repeat first [left; reflexivity | right]|].
  all: split; [reflexivity|split; [reflexivity|]].
  all: cbn [answered_error failure_context CreateVirtualNetwork CreateSubnet
            CreateNetworkSecurityGroup CreateNetWorkInterface].
  all: repeat match goal with
              | H : ?x = _ |- context [?x] => rewrite H
              end; cbn [fst snd]; split; reflexivity.
Qed.

(** X7: a failure up to and including the creation of the resource group
    comes back under the text of its step, with no operation after it and
    no deletion: a failing spec builder or image lookup issues nothing, a
    failing size query only itself, and a failing creation of the resource
    group nothing after itself. *)
Theorem CreateInstance_failure_before_boundary (pk : Packages) (a : azureProvider)
    (bootstrapParams : BootstrapInstance) (e : error) :
  let spec :=
    fst (GetRunnerSpecFromBootstrapParams pk bootstrapParams (controllerID a) (cfg a)) in
  let name := Name (BootstrapParams spec) in
  let query :=
    if UseEphemeralStorage spec then [CallGetMaxEphemeralDiskSize (VMSize spec)] else [] in
  OSArch bootstrapParams = Amd64 ->
  (snd (GetRunnerSpecFromBootstrapParams pk bootstrapParams (controllerID a) (cfg a))
   = Some e ->
   CreateInstance pk a bootstrapParams
   = (Returns ProviderInstance_zero (Some (Errorf_w "failed to generate spec" e)), []))
  /\ (snd (GetRunnerSpecFromBootstrapParams pk bootstrapParams (controllerID a) (cfg a))
      = None ->
      snd (RunnerSpec_ImageDetails pk spec) = Some e ->
      CreateInstance pk a bootstrapParams
      = (Returns ProviderInstance_zero (Some (Errorf_w "failed to get image details" e)),
         []))
  /\ (In (CallGetMaxEphemeralDiskSize (VMSize spec))
         (snd (CreateInstance pk a bootstrapParams)) ->
      snd (GetMaxEphemeralDiskSize (azCli a) (VMSize spec)) = Some e ->
      CreateInstance pk a bootstrapParams
      = (Returns ProviderInstance_zero
           (Some (Errorf_w "failed to get max ephemeral disk size" e)),
         [CallGetMaxEphemeralDiskSize (VMSize spec)]))
  /\ (In (CallCreateResourceGroup name (Tags spec))
         (snd (CreateInstance pk a bootstrapParams)) ->
      snd (CreateResourceGroup (azCli a) name (Tags spec)) = Some e ->
      CreateInstance pk a bootstrapParams
      = (Returns ProviderInstance_zero
           (Some (Errorf_w "failed to create resource group" e)),
         (query ++ [CallCreateResourceGroup name (Tags spec)])%list)).
Proof.
  intros spec name query Harch; subst spec name query.
  apply (proj2 (String.eqb_eq _ _)) in Harch.
  open_run a pk res.
  run_body.
  all: intros ->; cbn [fst snd] in *.
  all: repeat match goal with
              | H : ?x = _ |- context [?x] => rewrite H
              end; cbn [fst snd].
  all: repeat split; intros; in_cases; settle.
Qed.

(** *** The disk size and the complete run *)

(** X8: with ephemeral storage, the size a virtual machine is created with
    lies between the size the spec asks for and the adjusted maximum. *)
Theorem CreateInstance_ephemeral_size_bound (pk : Packages) (a : azureProvider)
    (bootstrapParams : BootstrapInstance) :
  let spec :=
    fst (GetRunnerSpecFromBootstrapParams pk bootstrapParams (controllerID a) (cfg a)) in
  let maxSize := fst (GetMaxEphemeralDiskSize (azCli a) (VMSize spec)) in
  let adjusted := if Confidential spec then Int32.sub maxSize 1 else maxSize in
  UseEphemeralStorage spec = true ->
  forall spec' nicID tags cacheSize,
    In (CallCreateVirtualMachine spec' nicID tags cacheSize)
       (snd (CreateInstance pk a bootstrapParams)) ->
    DiskSizeGB spec <= cacheSize <= adjusted.
Proof.
  intros spec maxSize adjusted; subst spec maxSize adjusted.
  intros Heph spec' nicID tags cacheSize.
  open_run a pk res.
  run_body.
  all: intros -> Hin; cbn [fst snd] in *; in_cases; try congruence.
  all: repeat match goal with
              | H : ?x = _ |- context [?x] => rewrite H
              end; cbn [fst snd].
  all: match goal with
       | H : (_ <? _) = false |- _ => apply Z.ltb_ge in H
       end.
  all: match goal with
       | |- context [?x =? 0] => destruct (Z.eqb_spec x 0); lia
       end.
Qed.

(** X9: with ephemeral storage and no explicit size, a negative adjusted
    maximum (a confidential VM on a size whose maximum is 0, say) ends the
    call with the capacity error for a request of 0, after the size query
    alone. *)
Theorem CreateInstance_negative_maximum (pk : Packages) (a : azureProvider)
    (bootstrapParams : BootstrapInstance) (spec : RunnerSpec)
    (imgDetails : ImageDetails) (maxSize : Z) :
  OSArch bootstrapParams = Amd64 ->
  GetRunnerSpecFromBootstrapParams pk bootstrapParams (controllerID a) (cfg a)
  = (spec, None) ->
  RunnerSpec_ImageDetails pk spec = (imgDetails, None) ->
  UseEphemeralStorage spec = true ->
  GetMaxEphemeralDiskSize (azCli a) (VMSize spec) = (maxSize, None) ->
  DiskSizeGB spec = 0 ->
  (if Confidential spec then Int32.sub maxSize 1 else maxSize) < 0 ->
  CreateInstance pk a bootstrapParams
  = (Returns ProviderInstance_zero
       (Some (Errorf_max_ephemeral (VMSize spec)
                (if Confidential spec then Int32.sub maxSize 1 else maxSize) 0)),
     [CallGetMaxEphemeralDiskSize (VMSize spec)]).
Proof.
  intros Harch Hspec Himg Heph Hmax Hdisk Hneg.
  apply (proj2 (String.eqb_eq _ _)) in Harch.
  apply Z.ltb_lt in Hneg. rewrite <- Hdisk in Hneg.
  open_run a pk res.
  run_body.
  all: intros ->; rewrite ?Hdisk; reflexivity.
Qed.

(** X10: when every collaborator succeeds and every resource comes back
    with its identifier, the call returns the assembled instance and the nil
    error, having issued the size query (with ephemeral storage), resource
    group, virtual network, subnet, public IP (when requested), security
    group, network interface and virtual machine, in this order and with no
    deletion. *)
Theorem CreateInstance_success (pk : Packages) (a : azureProvider)
    (bootstrapParams : BootstrapInstance) (spec : RunnerSpec)
    (imgDetails : ImageDetails) (maxSize : Z) (group network subnet nsg nic : Resource)
    (publicIP : PublicIPAddress) (subnetID nsgID nicID : string) :
  let cli := azCli a in
  let name := Name (BootstrapParams spec) in
  let adjusted := if Confidential spec then Int32.sub maxSize 1 else maxSize in
  let cacheSize :=
    if UseEphemeralStorage spec
    then if DiskSizeGB spec =? 0 then adjusted else DiskSizeGB spec
    else DiskSizeGB spec in
  let pubIPID :=
    if AllocatePublicIP spec
    then match PublicIP_ID publicIP with Some id => id | None => "" end
    else "" in
  let pubIP :=
    if AllocatePublicIP spec
    then match Properties publicIP with
         | Some properties =>
             match IPAddress properties with Some address => address | None => "" end
         | None => ""
         end
    else "" in
  OSArch bootstrapParams = Amd64 ->
  GetRunnerSpecFromBootstrapParams pk bootstrapParams (controllerID a) (cfg a)
  = (spec, None) ->
  RunnerSpec_ImageDetails pk spec = (imgDetails, None) ->
  (UseEphemeralStorage spec = true ->
   GetMaxEphemeralDiskSize cli (VMSize spec) = (maxSize, None)
   /\ DiskSizeGB spec <= adjusted) ->
  CreateResourceGroup cli name (Tags spec) = (group, None) ->
  CreateVirtualNetwork cli name (VirtualNetworkCIDR spec) = (network, None) ->
  CreateSubnet cli name (VirtualNetworkCIDR spec) = (subnet, None) ->
  ID subnet = Some subnetID ->
  (AllocatePublicIP spec = true ->
   CreatePublicIP cli name = (publicIP, None) /\ PublicIP_ID publicIP <> None) ->
  CreateNetworkSecurityGroup cli name spec = (nsg, None) ->
  ID nsg = Some nsgID ->
  CreateNetWorkInterface cli name subnetID nsgID pubIPID (UseAcceleratedNetworking spec)
  = (nic, None) ->
  ID nic = Some nicID ->
  CreateVirtualMachine cli spec nicID (Tags spec) cacheSize = None ->
  CreateInstance pk a bootstrapParams
  = (Returns (assemble_instance spec imgDetails pubIP) None,
     ((if UseEphemeralStorage spec
       then [CallGetMaxEphemeralDiskSize (VMSize spec)] else [])
      ++ [CallCreateResourceGroup name (Tags spec);
          CallCreateVirtualNetwork name (VirtualNetworkCIDR spec);
          CallCreateSubnet name (VirtualNetworkCIDR spec)]
      ++ (if AllocatePublicIP spec then [CallCreatePublicIP name] else [])
      ++ [CallCreateNetworkSecurityGroup name spec;
          CallCreateNetWorkInterface name subnetID nsgID pubIPID
            (UseAcceleratedNetworking spec);
          CallCreateVirtualMachine spec nicID (Tags spec) cacheSize])%list).
Proof.
  intros cli name adjusted cacheSize pubIPID pubIP; subst cli name adjusted.
  intros Harch Hspec Himg Hsize Hgroup Hnetwork Hsubnet HsubnetID Hip
         Hnsg HnsgID Hnic HnicID Hvm.
  apply (proj2 (String.eqb_eq _ _)) in Harch.
  subst cacheSize pubIPID pubIP.
  destruct (UseEphemeralStorage spec) eqn:Heph;
    destruct (AllocatePublicIP spec) eqn:Hallocate.
  all: try (destruct (Hsize eq_refl) as [Hmax Hfits]; apply Z.ltb_ge in Hfits).
  all: try (destruct (Hip eq_refl) as [Hpublic Hid];
            destruct (PublicIP_ID publicIP) as [id|] eqn:HpublicID;
            [|exfalso; apply Hid; reflexivity]).
  all: clear Hsize Hip.
  all: open_run a pk res.
  all: run_body.
  all: intros ->; reflexivity.
Qed.

(** *** Listing, reading and the other methods *)

Lemma store_app {A} (done : list A) (x y : A) (rest : list A) :
  store (List.length done) x (done ++ y :: rest) = (done ++ x :: rest)%list.
Proof.
  induction done as [|z done IH]; simpl; [reflexivity|].
  rewrite IH; reflexivity.
Qed.

(** The loop, once [done] records are in place and as many slots as records
    are left. *)
Lemma convert_from_all (pk : Packages) (vms : list VirtualMachine) :
  (forall vm, In vm vms -> snd (AzureInstanceToParamsInstance pk vm) = None) ->
  forall done slots,
    List.length slots = List.length vms ->
    convert_from pk (List.length done) (List.map Some vms) (done ++ slots)
    = (Some (done ++ List.map (fun vm => fst (AzureInstanceToParamsInstance pk vm)) vms)%list,
       None).
Proof.
  induction vms as [|vm vms IH]; intros Hconv done slots Hlen.
  - destruct slots; [|discriminate]. reflexivity.
  - destruct slots as [|slot slots]; [discriminate|].
    cbn [List.map convert_from].
    pose proof (Hconv vm (or_introl eq_refl)) as Hvm.
    destruct (AzureInstanceToParamsInstance pk vm) as [details e] eqn:Hdetails.
    cbn [snd] in Hvm; subst e. cbn [fst].
    rewrite store_app.
    replace (done ++ details :: slots)%list with ((done ++ [details]) ++ slots)%list
      by (rewrite <- List.app_assoc; reflexivity).
    replace (S (List.length done)) with (List.length (done ++ [details])%list)
      by (rewrite List.length_app; simpl; lia).
    rewrite IH.
    + rewrite <- List.app_assoc. reflexivity.
    + intros vm' Hin. apply Hconv. right; exact Hin.
    + simpl in Hlen. lia.
Qed.

(** X11: when no record of the listing is nil and every record translates,
    [ListInstances] returns the translations, one per record and in the
    order of the listing. *)
Theorem ListInstances_converts_all (pk : Packages) (a : azureProvider) (poolID : string)
    (vms : list VirtualMachine) :
  ListVirtualMachines (azCli a) poolID = (Some (List.map Some vms), None) ->
  (forall vm, In vm vms -> snd (AzureInstanceToParamsInstance pk vm) = None) ->
  ListInstances pk a poolID
  = ((Some (List.map (fun vm => fst (AzureInstanceToParamsInstance pk vm)) vms), None),
     [CallListVirtualMachines poolID]).
Proof.
  intros Hlist Hconv.
  unfold ListInstances. rewrite Hlist.
  pose proof (convert_from_all pk vms Hconv []
                (List.repeat ProviderInstance_zero (List.length (List.map Some vms))))
    as Hloop.
  cbn [List.length List.app] in Hloop.
  rewrite Hloop; [reflexivity|].
  rewrite List.repeat_length, List.length_map. reflexivity.
Qed.

(** X12: [ListInstances] returns a slice and the nil error, or the nil slice
    and an error, never both and never neither; a slice it returns is as
    long as the listing; and it issues the one listing operation. *)
Theorem ListInstances_outcome (pk : Packages) (a : azureProvider) (poolID : string) :
  snd (ListInstances pk a poolID) = [CallListVirtualMachines poolID]
  /\ ((exists e, fst (ListInstances pk a poolID) = (None, Some e))
      \/ (exists out,
             fst (ListInstances pk a poolID) = (Some out, None)
             /\ snd (ListVirtualMachines (azCli a) poolID) = None
             /\ List.length out
                = match fst (ListVirtualMachines (azCli a) poolID) with
                  | Some instances => List.length instances
                  | None => 0%nat
                  end)).
Proof.
  unfold ListInstances.
  destruct (ListVirtualMachines (azCli a) poolID) as [[instances|] [e|]]; cbn [fst snd].
  - split; [reflexivity|left; eexists; reflexivity].
  - split; [reflexivity|].
    destruct (convert_from_all_or_nothing pk instances 0%nat
                (List.repeat ProviderInstance_zero (List.length instances)))
      as [[e He]|[out [Hout Hlen]]]; rewrite ?He, ?Hout.
    + left; exists e; reflexivity.
    + right; exists out. repeat split.
      rewrite Hlen. apply List.repeat_length.
  - split; [reflexivity|left; eexists; reflexivity].
  - split; [reflexivity|right; exists []; repeat split].
Qed.

(** X13: the first record that is nil or fails to translate decides the
    error; the records after it are not looked at. *)
Theorem ListInstances_first_bad_record (pk : Packages) (a : azureProvider)
    (poolID : string) (before : list VirtualMachine) (bad : option VirtualMachine)
    (rest : list (option VirtualMachine)) :
  ListVirtualMachines (azCli a) poolID
  = (Some (List.map Some before ++ bad :: rest)%list, None) ->
  (forall vm, In vm before -> snd (AzureInstanceToParamsInstance pk vm) = None) ->
  match bad with
  | None =>
      fst (ListInstances pk a poolID)
      = (None, Some (ErrorString "nil vm object in response"))
  | Some vm =>
      forall e,
        snd (AzureInstanceToParamsInstance pk vm) = Some e ->
        fst (ListInstances pk a poolID)
        = (None, Some (Errorf_w "failed to convert VM details" e))
  end.
Proof.
  intros Hlist Hconv.
  unfold ListInstances. rewrite Hlist. cbn [fst]. clear Hlist.
  generalize (List.repeat ProviderInstance_zero
                (List.length (List.map Some before ++ bad :: rest)%list)).
  generalize 0%nat.
  induction before as [|vm' before IH]; intros idx resp.
  - destruct bad as [vm|]; cbn; [|reflexivity].
    intros e He.
    destruct (AzureInstanceToParamsInstance pk vm) as [details e'].
    cbn in He; subst e'. reflexivity.
  - cbn [List.map List.app convert_from].
    pose proof (Hconv vm' (or_introl eq_refl)) as Hvm.
    destruct (AzureInstanceToParamsInstance pk vm') as [details e'].
    cbn in Hvm; subst e'.
    apply IH. intros vm Hin. apply Hconv. right; exact Hin.
Qed.

(** X14: [GetInstance] and [ListInstances] translate a record alike: when the
    client answers the one with the record it lists alone for the other,
    both return its translation, or both return the same error. *)
Theorem GetInstance_agrees_with_ListInstances (pk : Packages) (a : azureProvider)
    (instance poolID : string) (vm : VirtualMachine) :
  GetInstance_cli (azCli a) instance instance = (vm, None) ->
  ListVirtualMachines (azCli a) poolID = (Some [Some vm], None) ->
  match snd (AzureInstanceToParamsInstance pk vm) with
  | None =>
      fst (GetInstance pk a instance)
      = (fst (AzureInstanceToParamsInstance pk vm), None)
      /\ fst (ListInstances pk a poolID)
         = (Some [fst (AzureInstanceToParamsInstance pk vm)], None)
  | Some e =>
      fst (GetInstance pk a instance)
      = (ProviderInstance_zero, Some (Errorf_w "failed to convert VM details" e))
      /\ fst (ListInstances pk a poolID)
         = (None, Some (Errorf_w "failed to convert VM details" e))
  end.
Proof.
  intros Hget Hlist.
  unfold GetInstance, ListInstances. rewrite Hget, Hlist.
  cbn [List.length List.repeat convert_from store].
  destruct (AzureInstanceToParamsInstance pk vm) as [details [e|]]; cbn; split; reflexivity.
Qed.

(** X15: the identifier of the instance a successful [CreateInstance]
    returns is the name of the resource group it created and the name its
    virtual machine was created under, and it is what [DeleteInstance],
    [GetInstance], [Stop] and [Start] hand to the client when given that
    identifier: the deletion is the forced deletion of that group. *)
Theorem lifecycle_addresses_created_group (pk : Packages) (a : azureProvider)
    (bootstrapParams : BootstrapInstance) (instance : ProviderInstance)
    (issued : list call) (force : bool) :
  CreateInstance pk a bootstrapParams = (Returns instance None, issued) ->
  let id := PI_ProviderID instance in
  (exists tags, In (CallCreateResourceGroup id tags) issued)
  /\ (exists spec nicID tags cacheSize,
         In (CallCreateVirtualMachine spec nicID tags cacheSize) issued
         /\ Name (BootstrapParams spec) = id)
  /\ snd (DeleteInstance a id) = [CallDeleteResourceGroup id true]
  /\ snd (GetInstance pk a id) = [CallGetInstance id id]
  /\ snd (Stop a id force) = [CallDealocateVM id id]
  /\ snd (Start a id) = [CallStartVM id].
Proof.
  intros Hrun id; subst id.
  assert (Hcreated :
            (exists tags, In (CallCreateResourceGroup (PI_ProviderID instance) tags) issued)
            /\ (exists spec nicID tags cacheSize,
                   In (CallCreateVirtualMachine spec nicID tags cacheSize) issued
                   /\ Name (BootstrapParams spec) = PI_ProviderID instance)).
  { revert Hrun.
    open_run a pk res.
    run_body.
    all: intros -> Hrun; try discriminate Hrun.
    all: injection Hrun as <- <-.
    all: match goal with
         | |- context [assemble_instance ?s ?i ?ip] =>
             destruct (assemble_instance_fields s i ip) as (Hid & _)
         end; rewrite Hid.
    all: split;
      [eexists; cbn [In]; repeat first [left; reflexivity | right]
      |do 4 eexists; split;
       [cbn [In]; repeat first [left; reflexivity | right]|reflexivity]]. }
  destruct Hcreated as [Hgroup Hvm].
  split; [exact Hgroup|split; [exact Hvm|]].
  split; [|split; [|split; reflexivity]].
  - unfold DeleteInstance.
    destruct (DeleteResourceGroup (azCli a) (PI_ProviderID instance) true); reflexivity.
  - unfold GetInstance.
    destruct (GetInstance_cli (azCli a) (PI_ProviderID instance) (PI_ProviderID instance))
      as [vm [e1|]]; [reflexivity|].
    destruct (AzureInstanceToParamsInstance pk vm) as [details [e2|]]; reflexivity.
Qed.

(** X16: [NewAzureProvider] returns a provider and the nil error, or nil and
    an error under the text of the constructor that failed, the config
    coming first; the provider it returns holds the controller ID it was
    given, the config loaded from the path and the client built from that
    config, so that [CreateInstance] asks the spec builder with exactly
    these. *)
Theorem NewAzureProvider_wiring (ctor : Constructors) (pk : Packages)
    (configPath controller : string) :
  match NewAzureProvider ctor configPath controller with
  | (Some a, None) =>
      controllerID a = controller
      /\ NewConfig ctor configPath = (cfg a, None)
      /\ NewAzCLI ctor (cfg a) = (azCli a, None)
      /\ forall bootstrapParams e,
           OSArch bootstrapParams = Amd64 ->
           snd (GetRunnerSpecFromBootstrapParams pk bootstrapParams controller
                  (fst (NewConfig ctor configPath))) = Some e ->
           CreateInstance pk a bootstrapParams
           = (Returns ProviderInstance_zero
                (Some (Errorf_w "failed to generate spec" e)), [])
  | (None, Some e) =>
      (exists e', snd (NewConfig ctor configPath) = Some e'
                  /\ e = Errorf_w "error loading config" e')
      \/ (exists e', snd (NewConfig ctor configPath) = None
                     /\ snd (NewAzCLI ctor (fst (NewConfig ctor configPath))) = Some e'
                     /\ e = Errorf_w "failed to get azure CLI" e')
  | _ => False
  end.
Proof.
  unfold NewAzureProvider.
  destruct (NewConfig ctor configPath) as [conf [e|]]; cbn [fst snd].
  - left; exists e; split; reflexivity.
  - destruct (NewAzCLI ctor conf) as [cli [e|]] eqn:Hcli; cbn [fst snd].
    + right; exists e; repeat split.
    + cbn [controllerID cfg azCli].
      split; [reflexivity|split; [reflexivity|split; [exact Hcli|]]].
      intros bootstrapParams e Harch Hspec.
      apply (proj2 (String.eqb_eq _ _)) in Harch.
      unfold CreateInstance, CreateInstance_body, run.
      rewrite Harch. cbn [negb controllerID cfg].
      destruct (GetRunnerSpecFromBootstrapParams pk bootstrapParams controller conf)
        as [spec e'].
      cbn in Hspec; subst e'. reflexivity.
Qed.

(** *** The theorems above at work on the scenarios *)

Lemma CreateInstance_rollback_witness :
  fst (run_nic_failure)
  = Returns ProviderInstance_zero (Some (Errorf_w "failed to create NIC" broken))
  /\ List.filter is_delete_group (snd run_nic_failure)
     = [CallDeleteResourceGroup "garm-runner-1" true].
Proof.
  destruct (CreateInstance_rollback (packages false false true 0)
              (provider (cloud_failing_at StepInterface address_20_1_2_3))
              (runner "amd64")
              (CallCreateNetWorkInterface "garm-runner-1" "subnet/garm-runner-1"
                 "nsg/garm-runner-1" "pip/garm-runner-1" false)
              StepInterface broken)
    as (Herror & _ & Hdeleted & _).
  - vm_compute. tauto.
  - reflexivity.
  - reflexivity.
  - split; [exact Herror|exact Hdeleted].
Defined.

Lemma CreateInstance_one_name_witness :
  name_given (CallCreateSubnet "garm-runner-1" "10.10.0.0/16") = Some "garm-runner-1".
Proof.
  destruct (CreateInstance_one_name (packages false false true 0)
              (provider (cloud 64 address_20_1_2_3 None)) (runner "amd64")
              (CallCreateSubnet "garm-runner-1" "10.10.0.0/16"))
    as [[Hquery|Hname] _].
  - vm_compute. tauto.
  - discriminate Hquery.
  - exact Hname.
Defined.

Lemma CreateInstance_identifiers_flow_witness :
  PublicIP_ID (fst (CreatePublicIP (cloud 64 address_20_1_2_3 None) "garm-runner-1"))
  = Some "pip/garm-runner-1"
  /\ exists subnetID nsgID pubIPID,
       CreateNetWorkInterface (cloud 64 address_20_1_2_3 None) "garm-runner-1"
         subnetID nsgID pubIPID false
       = ({| ID := Some "nic/garm-runner-1" |}, None).
Proof.
  destruct (CreateInstance_identifiers_flow (packages false false true 0)
              (provider (cloud 64 address_20_1_2_3 None)) (runner "amd64"))
    as [Hnic Hvm].
  split.
  - destruct (Hnic "garm-runner-1" "subnet/garm-runner-1" "nsg/garm-runner-1"
                "pip/garm-runner-1" false) as (_ & _ & Hip & _).
    + vm_compute. tauto.
    + exact Hip.
  - destruct (Hvm (spec_of false false true 0 (runner "amd64") "controller-1")
                "nic/garm-runner-1" [("garm-controller-id", "controller-1")] 0)
      as (_ & _ & subnetID & nsgID & pubIPID & _ & Hanswer).
    + vm_compute. tauto.
    + exists subnetID, nsgID, pubIPID. exact Hanswer.
Defined.

Lemma CreateInstance_outcome_witness :
  List.filter is_delete_group (snd run_public_ip) = []
  /\ (forall instance e,
         fst run_nic_failure = Returns instance (Some e) ->
         instance = ProviderInstance_zero).
Proof.
  destruct (CreateInstance_outcome (packages false false true 0)
              (provider (cloud 64 address_20_1_2_3 None)) (runner "amd64"))
    as [_ Hsuccess].
  destruct (CreateInstance_outcome (packages false false true 0)
              (provider (cloud_failing_at StepInterface address_20_1_2_3))
              (runner "amd64"))
    as [Hfailure _].
  split; [|exact Hfailure].
  destruct (Hsuccess (assemble_instance
                        (spec_of false false true 0 (runner "amd64") "controller-1")
                        {| SKU := "22_04-lts-gen2"; Version := "latest" |} "20.1.2.3"))
    as [Hkept _].
  - vm_compute. reflexivity.
  - exact Hkept.
Defined.

Lemma CreateInstance_panic_witness :
  List.filter is_delete_group (snd run_without_id) = []
  /\ List.filter (fun c => Nat.eqb (rank c) 7) (snd run_without_id) = [].
Proof.
  destruct (CreateInstance_panic (packages false false true 0)
              (provider (cloud 64 PublicIPAddress_zero None)) (runner "amd64")
              "invalid memory address or nil pointer dereference")
    as (_ & _ & Hkept & Hmachine & _).
  - vm_compute. reflexivity.
  - split; [exact Hkept|exact Hmachine].
Defined.

Lemma CreateInstance_deletes_only_after_failure_witness :
  exists c s e,
    In c (snd run_nic_failure)
    /\ provisioning_step c = Some s
    /\ declares_own_err s = false
    /\ fst run_nic_failure
       = Returns ProviderInstance_zero (Some (Errorf_w (failure_context s) e)).
Proof.
  destruct (CreateInstance_deletes_only_after_failure (packages false false true 0)
              (provider (cloud_failing_at StepInterface address_20_1_2_3))
              (runner "amd64") "garm-runner-1" true)
    as (_ & _ & _ & _ & c & s & e & Hin & Hstep & Hown & _ & Herror).
  - vm_compute. tauto.
  - exists c, s, e. exact (conj Hin (conj Hstep (conj Hown Herror))).
Defined.

Lemma CreateInstance_failure_before_boundary_witness :
  CreateInstance (packages true false false 0) (provider cloud_without_quota)
    (runner "amd64")
  = (Returns ProviderInstance_zero
       (Some (Errorf_w "failed to create resource group" broken)),
     [CallGetMaxEphemeralDiskSize "Standard_D2ds_v5";
      CallCreateResourceGroup "garm-runner-1" [("garm-controller-id", "controller-1")]]).
Proof.
  destruct (CreateInstance_failure_before_boundary (packages true false false 0)
              (provider cloud_without_quota) (runner "amd64") broken)
    as (_ & _ & _ & Hgroup).
  - reflexivity.
  - apply Hgroup.
    + vm_compute. tauto.
    + reflexivity.
Defined.

Lemma CreateInstance_ephemeral_size_bound_witness :
  0 <= 63 <= Int32.sub 64 1.
Proof.
  apply (CreateInstance_ephemeral_size_bound (packages true true false 0)
           (provider (cloud 64 PublicIPAddress_zero None)) (runner "amd64")
           eq_refl
           (spec_of true true false 0 (runner "amd64") "controller-1")
           "nic/garm-runner-1" [("garm-controller-id", "controller-1")] 63).
  vm_compute. tauto.
Defined.

Lemma CreateInstance_negative_maximum_witness :
  CreateInstance (packages true true false 0)
    (provider (cloud 0 PublicIPAddress_zero None)) (runner "amd64")
  = (Returns ProviderInstance_zero
       (Some (Errorf_max_ephemeral "Standard_D2ds_v5" (Int32.sub 0 1) 0)),
     [CallGetMaxEphemeralDiskSize "Standard_D2ds_v5"]).
Proof.
  apply (CreateInstance_negative_maximum (packages true true false 0)
           (provider (cloud 0 PublicIPAddress_zero None)) (runner "amd64")
           (spec_of true true false 0 (runner "amd64") "controller-1")
           {| SKU := "22_04-lts-gen2"; Version := "latest" |} 0).
  - reflexivity.
  - reflexivity.
  - reflexivity.
  - reflexivity.
  - reflexivity.
  - reflexivity.
  - vm_compute. reflexivity.
Defined.

Lemma CreateInstance_success_witness :
  fst run_confidential
  = Returns (assemble_instance
               (spec_of true true true 0 (runner "amd64") "controller-1")
               {| SKU := "22_04-lts-gen2"; Version := "latest" |} "20.1.2.3")
      None
  /\ List.length (snd run_confidential) = 8%nat.
Proof.
  pose proof (CreateInstance_success (packages true true true 0)
                (provider (cloud 64 address_20_1_2_3 None)) (runner "amd64")
                (spec_of true true true 0 (runner "amd64") "controller-1")
                {| SKU := "22_04-lts-gen2"; Version := "latest" |} 64
                {| ID := Some "rg/garm-runner-1" |}
                {| ID := Some "vnet/garm-runner-1" |}
                {| ID := Some "subnet/garm-runner-1" |}
                {| ID := Some "nsg/garm-runner-1" |}
                {| ID := Some "nic/garm-runner-1" |}
                address_20_1_2_3
                "subnet/garm-runner-1" "nsg/garm-runner-1" "nic/garm-runner-1"
                eq_refl eq_refl eq_refl) as Hrun.
  cbv zeta in Hrun.
  rewrite Hrun.
  - split; reflexivity.
  - intros _. split; [reflexivity|vm_compute; discriminate].
  - reflexivity.
  - reflexivity.
  - reflexivity.
  - reflexivity.
  - intros _. split; [reflexivity|discriminate].
  - reflexivity.
  - reflexivity.
  - reflexivity.
  - reflexivity.
  - reflexivity.
Defined.

Lemma ListInstances_converts_all_witness :
  fst (fst (ListInstances (packages false false false 0)
              (provider (cloud 64 PublicIPAddress_zero
                           (Some [Some {| VM_ID := None; VM_Name := Some "a" |};
                                  Some {| VM_ID := None; VM_Name := Some "b" |}])))
              "pool-1"))
  = Some (List.map (fun vm => fst (vm_to_instance vm))
            [{| VM_ID := None; VM_Name := Some "a" |};
             {| VM_ID := None; VM_Name := Some "b" |}]).
Proof.
  rewrite (ListInstances_converts_all (packages false false false 0)
             (provider (cloud 64 PublicIPAddress_zero
                          (Some [Some {| VM_ID := None; VM_Name := Some "a" |};
                                 Some {| VM_ID := None; VM_Name := Some "b" |}])))
             "pool-1"
             [{| VM_ID := None; VM_Name := Some "a" |};
              {| VM_ID := None; VM_Name := Some "b" |}]).
  - reflexivity.
  - reflexivity.
  - intros vm [<-|[<-|[]]]; reflexivity.
Defined.

Lemma ListInstances_first_bad_record_witness :
  fst (ListInstances (packages false false false 0)
         (provider (cloud 64 PublicIPAddress_zero
                      (Some [Some {| VM_ID := None; VM_Name := Some "a" |};
                             Some {| VM_ID := Some "b"; VM_Name := None |};
                             None])))
         "pool-1")
  = (None, Some (Errorf_w "failed to convert VM details" (ErrorString "missing VM name"))).
Proof.
  apply (ListInstances_first_bad_record (packages false false false 0)
           (provider (cloud 64 PublicIPAddress_zero
                        (Some [Some {| VM_ID := None; VM_Name := Some "a" |};
                               Some {| VM_ID := Some "b"; VM_Name := None |};
                               None])))
           "pool-1" [{| VM_ID := None; VM_Name := Some "a" |}]
           (Some {| VM_ID := Some "b"; VM_Name := None |}) [None]).
  - reflexivity.
  - intros vm [<-|[]]; reflexivity.
  - reflexivity.
Defined.

Lemma GetInstance_agrees_with_ListInstances_witness :
  fst (GetInstance (packages false false false 0)
         (provider (cloud 64 PublicIPAddress_zero
                      (Some [Some {| VM_ID := Some "garm-runner-1";
                                     VM_Name := Some "garm-runner-1" |}])))
         "garm-runner-1")
  = (fst (vm_to_instance {| VM_ID := Some "garm-runner-1";
                            VM_Name := Some "garm-runner-1" |}), None)
  /\ fst (ListInstances (packages false false false 0)
            (provider (cloud 64 PublicIPAddress_zero
                         (Some [Some {| VM_ID := Some "garm-runner-1";
                                        VM_Name := Some "garm-runner-1" |}])))
            "pool-1")
     = (Some [fst (vm_to_instance {| VM_ID := Some "garm-runner-1";
                                     VM_Name := Some "garm-runner-1" |})], None).
Proof.
  apply (GetInstance_agrees_with_ListInstances (packages false false false 0)
           (provider (cloud 64 PublicIPAddress_zero
                        (Some [Some {| VM_ID := Some "garm-runner-1";
                                       VM_Name := Some "garm-runner-1" |}])))
           "garm-runner-1" "pool-1"
           {| VM_ID := Some "garm-runner-1"; VM_Name := Some "garm-runner-1" |}).
  - reflexivity.
  - reflexivity.
Defined.

Lemma lifecycle_addresses_created_group_witness :
  exists instance,
    fst run_confidential = Returns instance None
    /\ snd (DeleteInstance (provider (cloud 64 address_20_1_2_3 None))
              (PI_ProviderID instance))
       = [CallDeleteResourceGroup (PI_ProviderID instance) true]
    /\ exists tags, In (CallCreateResourceGroup (PI_ProviderID instance) tags)
                       (snd run_confidential).
Proof.
  assert (Hrun : exists instance,
             run_confidential = (Returns instance None, snd run_confidential)).
  { eexists.
    rewrite (surjective_pairing run_confidential) at 1.
    f_equal. vm_compute. reflexivity. }
  destruct Hrun as [instance Hrun].
  exists instance. split; [rewrite Hrun; reflexivity|].
  destruct (lifecycle_addresses_created_group (packages true true true 0)
              (provider (cloud 64 address_20_1_2_3 None)) (runner "amd64")
              instance (snd run_confidential) true Hrun)
    as (Hgroup & _ & Hdelete & _).
  split; [exact Hdelete|exact Hgroup].
Defined.

Lemma NewAzureProvider_wiring_witness :
  exists a,
    NewAzureProvider constructors "azure.toml" "controller-1" = (Some a, None)
    /\ controllerID a = "controller-1"
    /\ NewConfig constructors "azure.toml" = (cfg a, None).
Proof.
  pose proof (NewAzureProvider_wiring constructors (packages false false false 0)
                "azure.toml" "controller-1") as Hnew.
  assert (Hresult : NewAzureProvider constructors "azure.toml" "controller-1"
                    = (Some (provider (cloud 64 PublicIPAddress_zero None)), None))
    by reflexivity.
  rewrite Hresult in Hnew.
  destruct Hnew as (Hid & Hconfig & _).
  exists (provider (cloud 64 PublicIPAddress_zero None)).
  split; [exact Hresult|split; [exact Hid|exact Hconfig]].
Defined.
